(** * goposm: the two-phase OSM import driver (goposm.go)

    A shallow embedding of [package main] of goposm: the package-level
    [init], the read phase [parse] and the write phase of [main] (the
    relation, way and node assemblers).  The packages [cache], [geom],
    [mapping], [proj], [parser], [database] and [writer] are not part of
    this file's source; their operations are taken as an interface
    ([Collaborators]) and every statement about [main] holds for all
    implementations of it.  A concrete implementation, written after the
    design document, is used to run the driver on examples. *)

From Stdlib Require Import ZArith String Ascii List Bool Lia.
From Stdlib Require Import Floats.PrimFloat.
From stdpp Require Import base option gmap strings list.

Local Open Scope string_scope.
Local Open Scope list_scope.
Local Open Scope Z_scope.

(** ** package element: the records the driver passes around *)

Module element.

(** [element.Geometry]: the binary geometry attached to an element. *)
Record Geometry := { Wkb : list Byte.byte }.

(** [element.OSMElem]: the sub-record shared by nodes, ways, relations. *)
Record OSMElem := {
  Id : Z;
  Tags : gmap string string;
  Geom : option Geometry;           (* nil until a builder sets it *)
}.

Record Node := {
  nElem : OSMElem;
  Lat : float;
  Long : float;
}.

Record Way := {
  wElem : OSMElem;
  Refs : list Z;                    (* node ids *)
  Nodes : list Node;                (* resolved coords, nil until filled *)
}.

Inductive MemberType := NODE | WAY | RELATION.

(** [Way] is a pointer in the source.  Each member owns the way record
    it points to (FillMembers loads one record per member), so the field
    is modelled by the record itself; [None] is the nil pointer. *)
Record Member := {
  mId : Z;
  mType : MemberType;
  Role : string;
  mWay : option Way;
}.

Record Relation := {
  rElem : OSMElem;
  Members : list Member;
}.

Definition setGeom (e : OSMElem) (g : option Geometry) : OSMElem :=
  {| Id := Id e; Tags := Tags e; Geom := g |}.

Definition setTags (e : OSMElem) (t : gmap string string) : OSMElem :=
  {| Id := Id e; Tags := t; Geom := Geom e |}.

Definition wSetGeom (w : Way) (g : option Geometry) : Way :=
  {| wElem := setGeom (wElem w) g; Refs := Refs w; Nodes := Nodes w |}.

Definition wSetNodes (w : Way) (ns : list Node) : Way :=
  {| wElem := wElem w; Refs := Refs w; Nodes := ns |}.

Definition wSetTags (w : Way) (t : gmap string string) : Way :=
  {| wElem := setTags (wElem w) t; Refs := Refs w; Nodes := Nodes w |}.

Definition nSetGeom (n : Node) (g : option Geometry) : Node :=
  {| nElem := setGeom (nElem n) g; Lat := Lat n; Long := Long n |}.

Definition nSetTags (n : Node) (t : gmap string string) : Node :=
  {| nElem := setTags (nElem n) t; Lat := Lat n; Long := Long n |}.

Definition rSetTags (r : Relation) (t : gmap string string) : Relation :=
  {| rElem := setTags (rElem r) t; Members := Members r |}.

Definition rSetMembers (r : Relation) (ms : list Member) : Relation :=
  {| rElem := rElem r; Members := ms |}.

Definition mSetWay (m : Member) (w : option Way) : Member :=
  {| mId := mId m; mType := mType m; Role := Role m; mWay := w |}.

(** Modelled from the spec: [Way.IsClosed] is declared in package
    element, which is not among the sources.  The design document says:
    a way is closed iff its node-id sequence has length >= 4 and its
    first id equals its last id. *)
Definition IsClosed (w : Way) : bool :=
  (4 <=? Z.of_nat (length (Refs w)))
  && match head (Refs w), last (Refs w) with
     | Some a, Some b => a =? b
     | _, _ => false
     end.

Definition isWay (t : MemberType) : bool :=
  match t with WAY => true | _ => false end.

End element.

Import element.

(** ** package strconv: [ParseInt(s, 10, 32)] of the Go library *)

Module strconv.

Inductive NumError := ErrSyntax | ErrRange.

Definition digit (c : ascii) : option Z :=
  let n := Z.of_nat (nat_of_ascii c) in
  if (48 <=? n) && (n <=? 57) then Some (n - 48) else None.

(** [ParseUint(s, 10, 32)] after the empty-string test: the digits are
    accumulated; a value above [2^32 - 1] is a range error and yields
    that maximum (the result on overflow does not depend on the
    remaining characters being digits: the library returns at once). *)
Fixpoint parseDigits (acc : Z) (s : list ascii) : Z * option NumError :=
  match s with
  | [] => (acc, None)
  | c :: s' =>
      match digit c with
      | None => (0, Some ErrSyntax)
      | Some d =>
          let n1 := acc * 10 + d in
          if 4294967295 <? n1 then (4294967295, Some ErrRange)
          else parseDigits n1 s'
      end
  end.

Definition ParseUint32 (s : list ascii) : Z * option NumError :=
  match s with
  | [] => (0, Some ErrSyntax)
  | _ => parseDigits 0 s
  end.

Definition ParseInt32 (str : string) : Z * option NumError :=
  match list_ascii_of_string str with
  | [] => (0, Some ErrSyntax)
  | c :: rest =>
      let neg := Ascii.eqb c "-"%char in
      let s := if Ascii.eqb c "+"%char || neg then rest
               else c :: rest in
      match ParseUint32 s with
      | (_, Some ErrSyntax) => (0, Some ErrSyntax)
      | (un, _) =>
          let cutoff := 2147483648 in
          if negb neg && (cutoff <=? un) then (cutoff - 1, Some ErrRange)
          else if neg && (cutoff <? un) then (- cutoff, Some ErrRange)
          else (if neg then - un else un, None)
      end
  end.

End strconv.

(** ** package-level state set by [init] *)

(** The process environment: [os.Getenv] is the empty string for an unset
    variable. *)
Definition Environ := string -> string.

Record Globals := {
  skipCoords : bool;
  skipNodes : bool;
  skipWays : bool;
  dbImportBatchSize : Z;
}.

Definition nonempty (s : string) : bool :=
  match s with EmptyString => false | _ => true end.

Definition init (Getenv : Environ) : Globals :=
  let n := fst (strconv.ParseInt32 (Getenv "GOPOSM_DBIMPORT_BATCHSIZE")) in
  {| skipCoords := nonempty (Getenv "GOPOSM_SKIP_COORDS");
     skipNodes := nonempty (Getenv "GOPOSM_SKIP_NODES");
     skipWays := nonempty (Getenv "GOPOSM_SKIP_WAYS");
     dbImportBatchSize := if n =? 0 then 4096 else n |}.

(** The command-line flags [main] reads. *)
Record Flags := {
  cachedir : string;
  overwritecache : bool;
  appendcache : bool;
  read : string;
  write : bool;
  connection : string;
  diff : bool;
  mappingFile : string;
}.

(** ** The packages outside this file, as an interface *)

(** [cache.OSMCache]: one store per entity kind and the inserted-ways
    marker. *)
Module cache.
Record OSMCacheOf (C N W R I : Type) := mk {
  Coords : C;
  Nodes : N;
  Ways : W;
  Relations : R;
  InsertedWays : I;
}.
Arguments mk {C N W R I}.
Arguments Coords {C N W R I}.
Arguments Nodes {C N W R I}.
Arguments Ways {C N W R I}.
Arguments Relations {C N W R I}.
Arguments InsertedWays {C N W R I}.
End cache.

Class Collaborators := {
  (** Go's [error] values.  [Level e] is the result of the type assertion
      [e.(ErrorLevel)] followed by the call of [Level()]: [None] when the
      value has no such method. *)
  error : Type;
  error_eq_dec :: EqDecision error;
  NotFound : error;                       (* cache.NotFound *)
  Level : error -> option Z;

  (** package mapping *)
  Match : Type;
  row : Type;
  Table : Match -> string;
  Row : Match -> OSMElem -> row;
  NewMapping : string -> option error;
  WayTagFilter : gmap string string -> gmap string string;
  RelationTagFilter : gmap string string -> gmap string string;
  NodeTagFilter : gmap string string -> gmap string string;
  PointMatcher : OSMElem -> list Match;
  LineStringMatcher : OSMElem -> list Match;
  PolygonMatcher : OSMElem -> list Match;

  (** package cache *)
  CoordsCache : Type;
  NodesCache : Type;
  WaysCache : Type;
  RelationsCache : Type;
  InsertedWaysCache : Type;
  Exists :
    cache.OSMCacheOf CoordsCache NodesCache WaysCache RelationsCache
      InsertedWaysCache -> bool;
  Remove :
    cache.OSMCacheOf CoordsCache NodesCache WaysCache RelationsCache
      InsertedWaysCache ->
    cache.OSMCacheOf CoordsCache NodesCache WaysCache RelationsCache
      InsertedWaysCache * option error;
  Open :
    cache.OSMCacheOf CoordsCache NodesCache WaysCache RelationsCache
      InsertedWaysCache ->
    cache.OSMCacheOf CoordsCache NodesCache WaysCache RelationsCache
      InsertedWaysCache * option error;
  SetLinearImport : CoordsCache -> bool -> CoordsCache;
  Flush : CoordsCache -> CoordsCache;
  PutCoords : CoordsCache -> list Node -> CoordsCache;
  PutNodes : NodesCache -> list Node -> NodesCache * Z;
  PutWays : WaysCache -> list Way -> WaysCache;
  PutRelations : RelationsCache -> list Relation -> RelationsCache;
  RelationsIter : RelationsCache -> list Relation;
  WaysIter : WaysCache -> list Way;
  NodesIter : NodesCache -> list Node;
  FillMembers : WaysCache -> list Member -> list Member * option error;
  (** [FillWay(w)] reads [w.Refs] and writes [w.Nodes]: the nodes it
      leaves in the way, and the error. *)
  FillWay : CoordsCache -> list Z -> list Node * option error;
  PutMembers :
    InsertedWaysCache -> list Member -> InsertedWaysCache * option error;
  IsInserted : InsertedWaysCache -> Z -> bool * option error;
  DiffRemove : string -> option error;
  DiffOpen : string -> option error;

  (** package proj *)
  NodesToMerc : list Node -> list Node;
  NodeToMerc : Node -> Node;

  (** package geom: the builders return the geometry and the error *)
  BuildRelation : Relation -> Relation * option error;
  LineStringWKB : list Node -> option Geometry * option error;
  PolygonWKB : list Node -> option Geometry * option error;
  PointWKB : Node -> option Geometry * option error;

  (** package database *)
  DatabaseOpen : string -> option error;
  DatabaseInit : option error;
}.

(** One batch taken from one of the four channels of [parse]. *)
Inductive Batch :=
| BCoords (nds : list Node)
| BNodes (nds : list Node)
| BWays (ws : list Way)
| BRelations (rels : list Relation).

Inductive Counter := CtCoords | CtNodes | CtWays | CtRelations.

Definition loc := nat.

(** How a computation ends: with a value, by [continue] (the rest of the
    loop body is skipped) or by [log.Fatal] (the process exits). *)
Inductive Outcome (A : Type) :=
| Val (a : A)
| Continue
| Exit.
Arguments Val {A}.
Arguments Continue {A}.
Arguments Exit {A}.

Section Monad.

Context {C : Collaborators}.

Definition OSMCache : Type :=
  cache.OSMCacheOf CoordsCache NodesCache WaysCache RelationsCache
    InsertedWaysCache.

(** Calls that reach outside the process, in the order they are made. *)
Inductive Event :=
| LogPrintln (e : error)                 (* log.Println(err) *)
| LogMsg (msg : string)                  (* log.Println of a message *)
| FmtPrintln (e : error)                 (* fmt.Println(err) *)
| LogFatal (msg : string) (e : option error)
| Panic
| ProgressAdd (c : Counter) (n : Z)
| ProgressReset
| ProgressStop
| CacheRemove
| CacheOpen
| CacheClose
| CoordsSetLinearImport (b : bool)
| CoordsFlush
| CoordsPut (nds : list Node)
| CoordsFillWay (id : Z)
| NodesPut (nds : list Node)
| NodesIterate
| WaysPut (ws : list Way)
| WaysIterate
| WaysFillMembers (id : Z)
| RelationsPut (rels : list Relation)
| RelationsIterate
| InsertedPutMembers (ms : list Member)
| InsertedIsInserted (id : Z)
| DiffCacheRemove
| DiffCacheOpen
| DiffAddFromWay (w : Way)
| DiffCoordsClose
| DbOpen
| DbInit
| NewInsertBuffer                        (* writer.NewInsertBuffer() *)
| NewDbWriter
| GeomBuildRelation (id : Z)
| GeomLineStringWKB (nds : list Node)
| GeomPolygonWKB (nds : list Node)
| GeomPointWKB (n : Node)
| Insert (table : string) (r : row)      (* insertBuffer.Insert *)
| InsertBufferClose
| DbWriterClose.

(** The state the driver threads: the cache, the way records behind the
    [*element.Way] pointers of the way pass, and the calls made so far. *)
Record State := mkState {
  osmCache : OSMCache;
  heap : gmap loc Way;
  trace : list Event;
}.

Definition M (A : Type) : Type := State -> Outcome A * State.

Definition ret {A} (a : A) : M A := fun s => (Val a, s).

Definition bind {A B} (m : M A) (f : A -> M B) : M B :=
  fun s =>
    match m s with
    | (Val a, s') => f a s'
    | (Continue, s') => (Continue, s')
    | (Exit, s') => (Exit, s')
    end.

Definition emit (e : Event) : M unit :=
  fun s => (Val tt, mkState (osmCache s) (heap s) (trace s ++ [e])).

Definition continue {A} : M A := fun s => (Continue, s).

Definition fatal {A} (msg : string) (e : option error) : M A :=
  fun s => (Exit, mkState (osmCache s) (heap s) (trace s ++ [LogFatal msg e])).

Definition getCache : M OSMCache := fun s => (Val (osmCache s), s).

Definition setCache (c : OSMCache) : M unit :=
  fun s => (Val tt, mkState c (heap s) (trace s)).

(** [p := new(element.Way); *p = w] *)
Definition alloc (w : Way) : M loc :=
  fun s =>
    let p := fresh (dom (heap s)) in
    (Val p, mkState (osmCache s) (<[p := w]> (heap s)) (trace s)).

(** [*p]; a nil or dangling pointer panics. *)
Definition load (p : loc) : M Way :=
  fun s =>
    match heap s !! p with
    | Some w => (Val w, s)
    | None => (Exit, mkState (osmCache s) (heap s) (trace s ++ [Panic]))
    end.

(** [*p = w] *)
Definition store (p : loc) (w : Way) : M unit :=
  fun s => (Val tt, mkState (osmCache s) (<[p := w]> (heap s)) (trace s)).

(** A loop whose body yields a value for each element ([continue] is
    spelled by returning the element's value early). *)
Fixpoint mapM {A B} (f : A -> M B) (xs : list A) : M (list B) :=
  match xs with
  | [] => ret []
  | x :: xs' =>
      bind (f x) (fun y => bind (mapM f xs') (fun ys => ret (y :: ys)))
  end.

(** [for _, x := range xs { body }]: [continue] ends one iteration,
    a fatal exit ends the loop. *)
Fixpoint for_each {A} (xs : list A) (body : A -> M unit) : M unit :=
  match xs with
  | [] => ret tt
  | x :: xs' =>
      fun s =>
        match body x s with
        | (Exit, s') => (Exit, s')
        | (_, s') => for_each xs' body s'
        end
  end.

End Monad.

Declare Scope go_scope.
Delimit Scope go_scope with go.
Notation "x <- m ;; k" := (bind m (fun x => k))
  (at level 100, m at next level, right associativity) : go_scope.
Notation "m ;; k" := (bind m (fun _ => k))
  (at level 100, right associativity) : go_scope.


(** ** The driver *)

Section Driver.

Context {C : Collaborators}.
Local Open Scope go_scope.

Definition setCoords (c : OSMCache) (x : CoordsCache) : OSMCache :=
  cache.mk x (cache.Nodes c) (cache.Ways c) (cache.Relations c)
    (cache.InsertedWays c).

Definition setNodes (c : OSMCache) (x : NodesCache) : OSMCache :=
  cache.mk (cache.Coords c) x (cache.Ways c) (cache.Relations c)
    (cache.InsertedWays c).

Definition setWays (c : OSMCache) (x : WaysCache) : OSMCache :=
  cache.mk (cache.Coords c) (cache.Nodes c) x (cache.Relations c)
    (cache.InsertedWays c).

Definition setRelations (c : OSMCache) (x : RelationsCache) : OSMCache :=
  cache.mk (cache.Coords c) (cache.Nodes c) (cache.Ways c) x
    (cache.InsertedWays c).

Definition setInsertedWays (c : OSMCache) (x : InsertedWaysCache)
  : OSMCache :=
  cache.mk (cache.Coords c) (cache.Nodes c) (cache.Ways c)
    (cache.Relations c) x.

Definition some {A} (l : list A) : bool :=      (* len(l) > 0 *)
  match l with [] => false | _ => true end.

(** *** parse (lines 53-148)

    The parser goroutines and the four writer pools run concurrently;
    [sched] is the order in which the writers take the batches off the
    channels.  [parse] returns after every writer is done, so what it
    does to the cache is the effect of the batches in that order. *)

Definition writeWays (g : Globals) (ws : list Way) : M unit :=
  if skipWays g then continue
  else
    let ws' :=
      map (fun w => wSetTags w (WayTagFilter (Tags (wElem w)))) ws in
    c <- getCache ;;
    setCache (setWays c (PutWays (cache.Ways c) ws')) ;;
    emit (WaysPut ws') ;;
    emit (ProgressAdd CtWays (Z.of_nat (length ws'))).

Definition writeRelations (rels : list Relation) : M unit :=
  let rels' :=
    map (fun r => rSetTags r (RelationTagFilter (Tags (rElem r)))) rels in
  c <- getCache ;;
  setCache (setRelations c (PutRelations (cache.Relations c) rels')) ;;
  emit (RelationsPut rels') ;;
  emit (ProgressAdd CtRelations (Z.of_nat (length rels'))).

Definition writeCoords (g : Globals) (nds : list Node) : M unit :=
  if skipCoords g then continue
  else
    c <- getCache ;;
    setCache (setCoords c (PutCoords (cache.Coords c) nds)) ;;
    emit (CoordsPut nds) ;;
    emit (ProgressAdd CtCoords (Z.of_nat (length nds))).

Definition writeNodes (g : Globals) (nds : list Node) : M unit :=
  if skipNodes g then continue
  else
    let nds' :=
      map (fun n => nSetTags n (NodeTagFilter (Tags (nElem n)))) nds in
    c <- getCache ;;
    let (nc, n) := PutNodes (cache.Nodes c) nds' in
    setCache (setNodes c nc) ;;
    emit (NodesPut nds') ;;
    emit (ProgressAdd CtNodes n).

Definition writeBatch (g : Globals) (b : Batch) : M unit :=
  match b with
  | BWays ws => writeWays g ws
  | BRelations rels => writeRelations rels
  | BCoords nds => writeCoords g nds
  | BNodes nds => writeNodes g nds
  end.

Definition parse (g : Globals) (sched : list Batch) : M unit :=
  for_each sched (writeBatch g).

(** *** The error test made after every geometry builder
    (lines 288-294, 339-345, 358-364, 394-400)

    [if err, ok := err.(ErrorLevel); ok { if err.Level() <= 0
    { continue } }; log.Println(err); continue] *)
Definition skipOnError {A} (e : error) : M A :=
  match Level e with
  | Some l => if l <=? 0 then continue else ret tt
  | None => ret tt
  end ;;
  emit (LogPrintln e) ;;
  continue.

Definition insertRows (matches : list Match) (e : OSMElem) : M unit :=
  for_each matches (fun m => emit (Insert (Table m) (Row m e))).

Definition project (w : Way) : Way :=       (* proj.NodesToMerc(w.Nodes) *)
  wSetNodes w (NodesToMerc (Nodes w)).

(** *** The relation assembler (lines 260-306) *)

(** The body of [for _, m := range r.Members] (lines 272-284), yielding
    the member as the iteration leaves it.  [m] is a copy of the slice
    element but its [Way] pointer is not: what FillWay and NodesToMerc
    write is seen through [r.Members]. *)
Definition fillMember (m : Member) : M Member :=
  match mWay m with
  | None => ret m                                            (* continue *)
  | Some w =>
      c <- getCache ;;
      emit (CoordsFillWay (Id (wElem w))) ;;
      let (nds, err) := FillWay (cache.Coords c) (Refs w) in
      let w1 := wSetNodes w nds in
      match err with
      | Some e =>
          if decide (e = NotFound) then
            ret (mSetWay m (Some (project w1)))
          else
            emit (FmtPrintln e) ;;
            ret (mSetWay m (Some w1))                        (* continue *)
      | None => ret (mSetWay m (Some (project w1)))
      end
  end.

(** Lines 264-286: the relation with its members filled and projected,
    handed to the geometry builder; what the builder leaves in [r] and
    the error it returns. *)
Definition assembleRelation (r : Relation) : M (Relation * option error) :=
  emit (ProgressAdd CtRelations 1) ;;
  c <- getCache ;;
  emit (WaysFillMembers (Id (rElem r))) ;;
  let (ms, err) := FillMembers (cache.Ways c) (Members r) in
  match err with
  | Some e =>
      if decide (e = NotFound) then ret tt
      else emit (FmtPrintln e) ;; continue
  | None => ret tt
  end ;;
  ms' <- mapM fillMember ms ;;
  let r1 := rSetMembers r ms' in
  emit (GeomBuildRelation (Id (rElem r1))) ;;
  ret (BuildRelation r1).

(** Lines 287-305. *)
Definition relationBody (r : Relation) : M unit :=
  built <- assembleRelation r ;;
  let (r2, err) := built : Relation * option error in
  match err with
  | Some e => skipOnError e
  | None => ret tt
  end ;;
  let matches := PolygonMatcher (rElem r2) in
  if some matches then
    insertRows matches (rElem r2) ;;
    c <- getCache ;;
    emit (InsertedPutMembers (Members r2)) ;;
    let (iw, err) := PutMembers (cache.InsertedWays c) (Members r2) in
    setCache (setInsertedWays c iw) ;;
    match err with
    | Some e => emit (FmtPrintln e)
    | None => ret tt
    end
  else ret tt.

Definition relationPass : M unit :=
  c <- getCache ;;
  emit RelationsIterate ;;
  for_each (RelationsIter (cache.Relations c)) relationBody.

(** *** The way assembler (lines 308-382)

    The workers drain one channel; each way is handled by one worker
    and the body reads nothing another worker writes, so the pass is
    the bodies of the ways one after the other.  [w] is the pointer
    received from the channel. *)

(** Lines 319-333: the marker test, the coords and the projection. *)
Definition wayPrepare (w : loc) : M unit :=
  emit (ProgressAdd CtWays 1) ;;
  w0 <- load w ;;
  c <- getCache ;;
  emit (InsertedIsInserted (Id (wElem w0))) ;;
  let (inserted, err) :=
    IsInserted (cache.InsertedWays c) (Id (wElem w0)) in
  match err with
  | Some e => emit (LogPrintln e) ;; continue
  | None => ret tt
  end ;;
  (if inserted then continue else ret tt) ;;
  emit (CoordsFillWay (Id (wElem w0))) ;;
  let (nds, err) := FillWay (cache.Coords c) (Refs w0) in
  store w (wSetNodes w0 nds) ;;
  match err with
  | Some _ => continue
  | None => ret tt
  end ;;
  w1 <- load w ;;
  store w (project w1).

(** Lines 334-352. *)
Definition wayLineStrings (w : loc) : M unit :=
  w2 <- load w ;;
  let matches := LineStringMatcher (wElem w2) in
  if some matches then
    (* make copy to avoid interference with polygon matches *)
    copy <- load w ;;
    way <- alloc copy ;;                          (* way := element.Way( *w) *)
    wy <- load way ;;
    emit (GeomLineStringWKB (Nodes wy)) ;;
    let (g, err) := LineStringWKB (Nodes wy) in
    store way (wSetGeom wy g) ;;                  (* way.Geom, err = ... *)
    match err with
    | Some e => skipOnError e
    | None => ret tt
    end ;;
    wy <- load way ;;
    insertRows matches (wElem wy)
  else ret tt.

(** Lines 353-371. *)
Definition wayPolygons (w : loc) : M unit :=
  w3 <- load w ;;
  if IsClosed w3 then
    let matches := PolygonMatcher (wElem w3) in
    if some matches then
      copy <- load w ;;
      way <- alloc copy ;;
      wy <- load way ;;
      emit (GeomPolygonWKB (Nodes wy)) ;;
      let (g, err) := PolygonWKB (Nodes wy) in
      store way (wSetGeom wy g) ;;
      match err with
      | Some e => skipOnError e
      | None => ret tt
      end ;;
      wy <- load way ;;
      insertRows matches (wElem wy)
    else ret tt
  else ret tt.

(** Lines 373-375. *)
Definition wayDiff (diff : bool) (w : loc) : M unit :=
  if diff then
    w4 <- load w ;;
    emit (DiffAddFromWay w4)
  else ret tt.

Definition wayBody (diff : bool) (w : loc) : M unit :=
  wayPrepare w ;;
  wayLineStrings w ;;
  wayPolygons w ;;
  wayDiff diff w.

Definition wayPass (diff : bool) : M unit :=
  c <- getCache ;;
  emit WaysIterate ;;
  for_each (WaysIter (cache.Ways c))
    (fun x => w <- alloc x ;; wayBody diff w).

(** *** The node assembler (lines 384-409) *)

Definition nodeBody (n : Node) : M unit :=
  emit (ProgressAdd CtNodes 1) ;;
  let matches := PointMatcher (nElem n) in
  if some matches then
    let n1 := NodeToMerc n in
    emit (GeomPointWKB n1) ;;
    let (g, err) := PointWKB n1 in
    let n2 := nSetGeom n1 g in
    match err with
    | Some e => skipOnError e
    | None => ret tt
    end ;;
    insertRows matches (nElem n2)
  else ret tt.

Definition nodePass : M unit :=
  c <- getCache ;;
  emit NodesIterate ;;
  for_each (NodesIter (cache.Nodes c)) nodeBody.

(** *** main (lines 194-415; the profiling set-up before it touches
    none of the stores and is left out) *)

Definition check {A} (msg : string) (err : option error) (k : M A) : M A :=
  match err with                  (* if err != nil { log.Fatal(msg, err) } *)
  | Some e => fatal msg (Some e)
  | None => k
  end.

Definition readPhase (g : Globals) (sched : list Batch) : M unit :=
  c <- getCache ;;
  setCache (setCoords c (SetLinearImport (cache.Coords c) true)) ;;
  emit (CoordsSetLinearImport true) ;;
  parse g sched ;;
  c <- getCache ;;
  setCache (setCoords c (SetLinearImport (cache.Coords c) false)) ;;
  emit (CoordsSetLinearImport false) ;;
  emit ProgressReset ;;
  c <- getCache ;;
  setCache (setCoords c (Flush (cache.Coords c))) ;;
  emit CoordsFlush.

(** Lines 260-411, once the sink is open. *)
Definition assemble (fl : Flags) : M unit :=
  relationPass ;;
  wayPass (diff fl) ;;
  emit DiffCoordsClose ;;
  nodePass ;;
  emit InsertBufferClose ;;
  emit DbWriterClose.

Definition writePhase (fl : Flags) : M unit :=
  emit ProgressReset ;;
  emit DiffCacheRemove ;;
  check "" (DiffRemove (cachedir fl)) (
  emit DiffCacheOpen ;;
  check "" (DiffOpen (cachedir fl)) (
  emit DbOpen ;;
  check "" (DatabaseOpen (connection fl)) (
  emit DbInit ;;
  check "" DatabaseInit (
  emit NewInsertBuffer ;;
  emit NewDbWriter ;;
  assemble fl)))).

Definition main (fl : Flags) (g : Globals) (sched : list Batch) : M unit :=
  c <- getCache ;;
  (if nonempty (read fl) && Exists c then
     if overwritecache fl then
       emit (LogMsg "removing existing cache") ;;
       emit CacheRemove ;;
       let (c', err) := Remove c in
       setCache c' ;;
       check "unable to remove cache:" err (ret tt)
     else if negb (appendcache fl) then
       fatal "cache already exists use -appendcache or -overwritecache"
         None
     else ret tt
   else ret tt) ;;
  c <- getCache ;;
  emit CacheOpen ;;
  (let (c', err) := Open c in
   setCache c' ;;
   check "" err (ret tt)) ;;
  check "" (NewMapping (mappingFile fl)) (
  (if nonempty (read fl) then readPhase g sched else ret tt) ;;
  (if write fl then writePhase fl else ret tt) ;;
  emit ProgressStop ;;
  emit CacheClose).                          (* defer osmCache.Close() *)


End Driver.

(** ** Notions the statements are phrased with *)

Section Notions.

Context {C : Collaborators}.

(** An error the builders' error test drops without a log line: it has a
    [Level] method and the level is at most 0. *)
Definition silent (e : error) : bool :=
  match Level e with
  | Some l => l <=? 0
  | None => false
  end.

Definition logged (e : error) : list Event :=
  if silent e then [] else [LogPrintln e].

(** The rows inserted for an element and its matches. *)
Definition rowsOf (matches : list Match) (e : OSMElem) : list Event :=
  map (fun m => Insert (Table m) (Row m e)) matches.

(** The ids of the way-typed members of a member list. *)
Definition wayIds (ms : list Member) : list Z :=
  map mId (filter (fun m => isWay (mType m) = true) ms).

(** [is_inserted(id)] answers true. *)
Definition marked (iw : InsertedWaysCache) (id : Z) : Prop :=
  fst (IsInserted iw id) = true.

(** The member as the loop of lines 272-284 leaves it. *)
Definition filled (cc : CoordsCache) (m : Member) : Member :=
  match mWay m with
  | None => m
  | Some w =>
      let w1 := wSetNodes w (fst (FillWay cc (Refs w))) in
      match snd (FillWay cc (Refs w)) with
      | Some e =>
          if decide (e = NotFound) then mSetWay m (Some (project w1))
          else mSetWay m (Some w1)
      | None => mSetWay m (Some (project w1))
      end
  end.

(** The relation handed to the geometry builder, unless FillMembers
    fails with an error other than NotFound. *)
Definition handed (c : OSMCache) (r : Relation) : option Relation :=
  let r1 :=
    rSetMembers r
      (map (filled (cache.Coords c))
         (fst (FillMembers (cache.Ways c) (Members r)))) in
  match snd (FillMembers (cache.Ways c) (Members r)) with
  | Some e => if decide (e = NotFound) then Some r1 else None
  | None => Some r1
  end.

(** The relation handed to the polygon matcher, when the body gets that
    far: it was handed to the builder and the builder returned nil. *)
Definition assembled (c : OSMCache) (r : Relation) : option Relation :=
  match handed c r with
  | Some r1 =>
      match snd (BuildRelation r1) with
      | None => Some (fst (BuildRelation r1))
      | Some _ => None
      end
  | None => None
  end.

(** The relations whose members the relation assembler marks. *)
Definition marking (c : OSMCache) (r : Relation) : option Relation :=
  match assembled c r with
  | Some r2 => if some (PolygonMatcher (rElem r2)) then Some r2 else None
  | None => None
  end.

(** The calls of the relation assembler for one relation, spelled out. *)
Definition fillCalls (cc : CoordsCache) (m : Member) : list Event :=
  match mWay m with
  | None => []
  | Some w =>
      CoordsFillWay (Id (wElem w))
      :: match snd (FillWay cc (Refs w)) with
         | Some e => if decide (e = NotFound) then [] else [FmtPrintln e]
         | None => []
         end
  end.

Definition assembleCalls (c : OSMCache) (r : Relation) : list Event :=
  [ProgressAdd CtRelations 1; WaysFillMembers (Id (rElem r))]
  ++ match handed c r with
     | Some r1 =>
         flat_map (fillCalls (cache.Coords c))
           (fst (FillMembers (cache.Ways c) (Members r)))
         ++ [GeomBuildRelation (Id (rElem r1))]
     | None =>
         match snd (FillMembers (cache.Ways c) (Members r)) with
         | Some e => [FmtPrintln e]
         | None => []
         end
     end.

Definition markCalls (c : OSMCache) (r2 : Relation) : list Event :=
  let matches := PolygonMatcher (rElem r2) in
  if some matches then
    rowsOf matches (rElem r2)
    ++ InsertedPutMembers (Members r2)
    :: match snd (PutMembers (cache.InsertedWays c) (Members r2)) with
       | Some e => [FmtPrintln e]
       | None => []
       end
  else [].

Definition relationCalls (c : OSMCache) (r : Relation) : list Event :=
  assembleCalls c r
  ++ match handed c r with
     | Some r1 =>
         match snd (BuildRelation r1) with
         | Some e => logged e
         | None => markCalls c (fst (BuildRelation r1))
         end
     | None => []
     end.

(** The cache the relation assembler leaves after one relation. *)
Definition relationCache (c : OSMCache) (r : Relation) : OSMCache :=
  match marking c r with
  | Some r2 =>
      setInsertedWays c
        (fst (PutMembers (cache.InsertedWays c) (Members r2)))
  | None => c
  end.

(** The calls of the node assembler for one node. *)
Definition nodeCalls (n : Node) : list Event :=
  let matches := PointMatcher (nElem n) in
  ProgressAdd CtNodes 1
  :: (if some matches then
        GeomPointWKB (NodeToMerc n)
        :: match snd (PointWKB (NodeToMerc n)) with
           | Some e => logged e
           | None =>
               rowsOf matches
                 (setGeom (nElem (NodeToMerc n))
                    (fst (PointWKB (NodeToMerc n))))
           end
      else []).






Definition isCoordsPut (e : Event) : bool :=
  match e with CoordsPut _ => true | _ => false end.

Definition isNodesPut (e : Event) : bool :=
  match e with NodesPut _ => true | _ => false end.

Definition isWaysPut (e : Event) : bool :=
  match e with WaysPut _ => true | _ => false end.

Definition isInsert (e : Event) : bool :=
  match e with Insert _ _ => true | _ => false end.

Definition isDiffAdd (e : Event) : bool :=
  match e with DiffAddFromWay _ => true | _ => false end.

Definition isPolygonBuild (e : Event) : bool :=
  match e with GeomPolygonWKB _ => true | _ => false end.

(** The line-string branch of a way does not end the body: no rule
    matches, or the builder returns no error. *)
Definition lineStringsPass (w : Way) : bool :=
  negb (some (LineStringMatcher (wElem w)))
  || bool_decide (snd (LineStringWKB (Nodes w)) = None).

Definition polygonsPass (w : Way) : bool :=
  negb (IsClosed w && some (PolygonMatcher (wElem w)))
  || bool_decide (snd (PolygonWKB (Nodes w)) = None).

(** The calls of the line-string branch, of the polygon branch and of the
    whole body of the way assembler for the way [w0] received from the
    channel, spelled out. *)
Definition lineStringCalls (w : Way) : list Event :=
  let matches := LineStringMatcher (wElem w) in
  if some matches then
    GeomLineStringWKB (Nodes w)
    :: match snd (LineStringWKB (Nodes w)) with
       | Some e => logged e
       | None =>
           rowsOf matches (setGeom (wElem w) (fst (LineStringWKB (Nodes w))))
       end
  else [].

Definition polygonCalls (w : Way) : list Event :=
  let matches := PolygonMatcher (wElem w) in
  if IsClosed w && some matches then
    GeomPolygonWKB (Nodes w)
    :: match snd (PolygonWKB (Nodes w)) with
       | Some e => logged e
       | None =>
           rowsOf matches (setGeom (wElem w) (fst (PolygonWKB (Nodes w))))
       end
  else [].

Definition wayCalls (diff : bool) (c : OSMCache) (w0 : Way) : list Event :=
  let id := Id (wElem w0) in
  let w2 :=
    project (wSetNodes w0 (fst (FillWay (cache.Coords c) (Refs w0)))) in
  [ProgressAdd CtWays 1; InsertedIsInserted id]
  ++ match IsInserted (cache.InsertedWays c) id with
     | (_, Some e) => [LogPrintln e]
     | (true, None) => []
     | (false, None) =>
         CoordsFillWay id
         :: match snd (FillWay (cache.Coords c) (Refs w0)) with
            | Some _ => []
            | None =>
                lineStringCalls w2
                ++ (if lineStringsPass w2 then
                      polygonCalls w2
                      ++ (if polygonsPass w2 then
                            if diff then [DiffAddFromWay w2] else []
                          else [])
                    else [])
            end
     end.

(** The calls of a pass over [xs] whose body, for [x] and the cache [c],
    makes the calls [callsOf c x] and leaves the cache [step c x]. *)
Fixpoint passCalls {A} (step : OSMCache -> A -> OSMCache)
  (callsOf : OSMCache -> A -> list Event) (c : OSMCache) (xs : list A)
  : list Event :=
  match xs with
  | [] => []
  | x :: xs' => callsOf c x ++ passCalls step callsOf (step c x) xs'
  end.

Definition relationPassCalls (c : OSMCache) : list Event :=
  RelationsIterate
  :: passCalls relationCache relationCalls c
       (RelationsIter (cache.Relations c)).

Definition wayPassCalls (diff : bool) (c : OSMCache) : list Event :=
  WaysIterate :: flat_map (wayCalls diff c) (WaysIter (cache.Ways c)).

Definition nodePassCalls (c : OSMCache) : list Event :=
  NodesIterate :: flat_map nodeCalls (NodesIter (cache.Nodes c)).

(** The cache and the calls of [parse] for one batch. *)
Definition batchCache (g : Globals) (c : OSMCache) (b : Batch) : OSMCache :=
  match b with
  | BWays ws =>
      if skipWays g then c
      else
        setWays c
          (PutWays (cache.Ways c)
             (map (fun w => wSetTags w (WayTagFilter (Tags (wElem w)))) ws))
  | BRelations rels =>
      setRelations c
        (PutRelations (cache.Relations c)
           (map (fun r => rSetTags r (RelationTagFilter (Tags (rElem r))))
              rels))
  | BCoords nds =>
      if skipCoords g then c
      else setCoords c (PutCoords (cache.Coords c) nds)
  | BNodes nds =>
      if skipNodes g then c
      else
        setNodes c
          (fst (PutNodes (cache.Nodes c)
                  (map (fun n => nSetTags n (NodeTagFilter (Tags (nElem n))))
                     nds)))
  end.

Definition batchCalls (g : Globals) (c : OSMCache) (b : Batch)
  : list Event :=
  match b with
  | BWays ws =>
      if skipWays g then []
      else
        let ws' :=
          map (fun w => wSetTags w (WayTagFilter (Tags (wElem w)))) ws in
        [WaysPut ws'; ProgressAdd CtWays (Z.of_nat (length ws'))]
  | BRelations rels =>
      let rels' :=
        map (fun r => rSetTags r (RelationTagFilter (Tags (rElem r))))
          rels in
      [RelationsPut rels'; ProgressAdd CtRelations (Z.of_nat (length rels'))]
  | BCoords nds =>
      if skipCoords g then []
      else [CoordsPut nds; ProgressAdd CtCoords (Z.of_nat (length nds))]
  | BNodes nds =>
      if skipNodes g then []
      else
        let nds' :=
          map (fun n => nSetTags n (NodeTagFilter (Tags (nElem n)))) nds in
        [NodesPut nds';
         ProgressAdd CtNodes (snd (PutNodes (cache.Nodes c) nds'))]
  end.

Definition parseCalls (g : Globals) (sched : list Batch) (c : OSMCache)
  : list Event :=
  passCalls (batchCache g) (batchCalls g) c sched.

(** The cache and the calls of the read phase. *)
Definition linearOn (c : OSMCache) : OSMCache :=
  setCoords c (SetLinearImport (cache.Coords c) true).

Definition readCache (g : Globals) (sched : list Batch) (c : OSMCache)
  : OSMCache :=
  let c1 := fold_left (batchCache g) sched (linearOn c) in
  let c2 := setCoords c1 (SetLinearImport (cache.Coords c1) false) in
  setCoords c2 (Flush (cache.Coords c2)).

Definition readCalls (g : Globals) (sched : list Batch) (c : OSMCache)
  : list Event :=
  CoordsSetLinearImport true
  :: parseCalls g sched (linearOn c)
  ++ [CoordsSetLinearImport false; ProgressReset; CoordsFlush].

(** The cache and the calls of the write phase. *)
Definition relationsDone (c : OSMCache) : OSMCache :=
  fold_left relationCache (RelationsIter (cache.Relations c)) c.

Definition assemblyCalls (fl : Flags) (c : OSMCache) : list Event :=
  relationPassCalls c
  ++ wayPassCalls (diff fl) (relationsDone c)
  ++ DiffCoordsClose
  :: nodePassCalls (relationsDone c)
  ++ [InsertBufferClose; DbWriterClose].

Definition sinkCalls (fl : Flags) (rest : list Event) : list Event :=
  DiffCacheRemove
  :: match DiffRemove (cachedir fl) with
     | Some e => [LogFatal "" (Some e)]
     | None =>
         DiffCacheOpen
         :: match DiffOpen (cachedir fl) with
            | Some e => [LogFatal "" (Some e)]
            | None =>
                DbOpen
                :: match DatabaseOpen (connection fl) with
                   | Some e => [LogFatal "" (Some e)]
                   | None =>
                       DbInit
                       :: match DatabaseInit with
                          | Some e => [LogFatal "" (Some e)]
                          | None => NewInsertBuffer :: NewDbWriter :: rest
                          end
                   end
            end
     end.

Definition sinkOpens (fl : Flags) : bool :=
  bool_decide (DiffRemove (cachedir fl) = None)
  && bool_decide (DiffOpen (cachedir fl) = None)
  && bool_decide (DatabaseOpen (connection fl) = None)
  && bool_decide (DatabaseInit = None).

Definition writeCache (fl : Flags) (c : OSMCache) : OSMCache :=
  if sinkOpens fl then relationsDone c else c.

Definition writeCalls (fl : Flags) (c : OSMCache) : list Event :=
  ProgressReset :: sinkCalls fl (assemblyCalls fl c).

(** The calls of [main] before the phases, the cache it then holds and
    whether it got that far. *)
Definition startup (fl : Flags) (c : OSMCache)
  : list Event * OSMCache * bool :=
  let '(ev, c1, ok) :=
    if nonempty (read fl) && Exists c then
      if overwritecache fl then
        ([LogMsg "removing existing cache"; CacheRemove]
         ++ match snd (Remove c) with
            | Some e => [LogFatal "unable to remove cache:" (Some e)]
            | None => []
            end,
         fst (Remove c), bool_decide (snd (Remove c) = None))
      else if negb (appendcache fl) then
        ([LogFatal
            "cache already exists use -appendcache or -overwritecache" None],
         c, false)
      else ([], c, true)
    else ([], c, true) in
  if ok : bool then
    match snd (Open c1), NewMapping (mappingFile fl) with
    | Some e, _ => (ev ++ [CacheOpen; LogFatal "" (Some e)], fst (Open c1), false)
    | None, Some e =>
        (ev ++ [CacheOpen; LogFatal "" (Some e)], fst (Open c1), false)
    | None, None => (ev ++ [CacheOpen], fst (Open c1), true)
    end
  else (ev, c1, false).

Definition phasesCalls (fl : Flags) (g : Globals) (sched : list Batch)
  (c : OSMCache) : list Event :=
  let c1 := if nonempty (read fl) then readCache g sched c else c in
  (if nonempty (read fl) then readCalls g sched c else [])
  ++ (if write fl then
        writeCalls fl c1
        ++ (if sinkOpens fl then [ProgressStop; CacheClose] else [])
      else [ProgressStop; CacheClose]).

Definition mainCalls (fl : Flags) (g : Globals) (sched : list Batch)
  (c : OSMCache) : list Event :=
  let '(ev, c1, ok) := startup fl c in
  if ok : bool then ev ++ phasesCalls fl g sched c1 else ev.

(** The calls the three assemblers make. *)
Definition assemblerCall (e : Event) : bool :=
  match e with
  | LogPrintln _ | FmtPrintln _ | ProgressAdd _ _
  | CoordsFillWay _ | WaysFillMembers _ | InsertedPutMembers _
  | InsertedIsInserted _ | DiffAddFromWay _
  | GeomBuildRelation _ | GeomLineStringWKB _ | GeomPolygonWKB _
  | GeomPointWKB _ | Insert _ _
  | RelationsIterate | WaysIterate | NodesIterate => true
  | _ => false
  end.



(** The way is not marked as inserted (and the marker answered without
    an error); its coords resolve. *)
Definition unmarked (c : OSMCache) (w : Way) : bool :=
  match IsInserted (cache.InsertedWays c) (Id (wElem w)) with
  | (false, None) => true
  | _ => false
  end.

Definition resolves (c : OSMCache) (w : Way) : bool :=
  bool_decide (snd (FillWay (cache.Coords c) (Refs w)) = None).

(** The way as the way assembler has it after the coord fill and the
    projection. *)
Definition projected (c : OSMCache) (w : Way) : Way :=
  project (wSetNodes w (fst (FillWay (cache.Coords c) (Refs w)))).

(** The calls a run adds to the trace. *)
Definition calls {A} (m : M A) (s : State) : list Event :=
  drop (length (trace s)) (trace (snd (m s))).

(** *** Notions for the rest of the driver *)

(** Whether [main] returns rather than ending in [log.Fatal], and the
    cache it leaves. *)
Definition mainOk (fl : Flags) (c : OSMCache) : bool :=
  snd (startup fl c) && (negb (write fl) || sinkOpens fl).

Definition mainCache (fl : Flags) (g : Globals) (sched : list Batch)
  (c : OSMCache) : OSMCache :=
  let '(_, c1, ok) := startup fl c in
  if ok : bool then
    let c2 := if nonempty (read fl) then readCache g sched c1 else c1 in
    if write fl then writeCache fl c2 else c2
  else c1.

(** The batches of each kind in a schedule, as the writers hand them to
    the cache (tags filtered). *)
Definition coordsOf (sched : list Batch) : list (list Node) :=
  flat_map (fun b => match b with BCoords nds => [nds] | _ => [] end) sched.


Definition waysOf (sched : list Batch) : list (list Way) :=
  flat_map (fun b =>
    match b with
    | BWays ws =>
        [map (fun w => wSetTags w (WayTagFilter (Tags (wElem w)))) ws]
    | _ => []
    end) sched.

Definition relationsOf (sched : list Batch) : list (list Relation) :=
  flat_map (fun b =>
    match b with
    | BRelations rels =>
        [map (fun r => rSetTags r (RelationTagFilter (Tags (rElem r)))) rels]
    | _ => []
    end) sched.

(** Kinds of calls. *)
Definition isCacheRemove (e : Event) : bool :=
  match e with CacheRemove => true | _ => false end.



(** A call that writes to one of the four entity stores, switches the
    mode of the coord store or removes the cache. *)
Definition isStoreWrite (e : Event) : bool :=
  match e with
  | CacheRemove | CoordsSetLinearImport _ | CoordsFlush | CoordsPut _
  | NodesPut _ | WaysPut _ | RelationsPut _ => true
  | _ => false
  end.

(** A call on the diff cache, the database, the insert buffer or the
    inserted-ways marker, or a call of a geometry builder. *)
Definition isWriteSide (e : Event) : bool :=
  match e with
  | DiffCacheRemove | DiffCacheOpen | DiffAddFromWay _ | DiffCoordsClose
  | DbOpen | DbInit | NewInsertBuffer | NewDbWriter | Insert _ _
  | InsertBufferClose | DbWriterClose
  | InsertedPutMembers _ | InsertedIsInserted _
  | GeomBuildRelation _ | GeomLineStringWKB _ | GeomPolygonWKB _
  | GeomPointWKB _ => true
  | _ => false
  end.

Definition isBuilderCall (e : Event) : bool :=
  match e with
  | GeomBuildRelation _ | GeomLineStringWKB _ | GeomPolygonWKB _
  | GeomPointWKB _ => true
  | _ => false
  end.

Definition isPutMembers (e : Event) : bool :=
  match e with InsertedPutMembers _ => true | _ => false end.

Definition isPrint (e : Event) : bool :=
  match e with LogPrintln _ | FmtPrintln _ => true | _ => false end.

(** The progress reports among a list of calls. *)
Definition progressOf (evs : list Event) : list (Counter * Z) :=
  flat_map (fun e => match e with
                     | ProgressAdd k n => [(k, n)]
                     | _ => []
                     end) evs.

(** A decimal numeral: the string of the digits [ds] and its value. *)
Definition digitChar (d : Z) : ascii := ascii_of_nat (Z.to_nat (48 + d)).

Definition numeral (ds : list Z) : string :=
  string_of_list_ascii (map digitChar ds).

Definition valueOf (ds : list Z) : Z :=
  fold_left (fun acc d => acc * 10 + d) ds 0.

Definition isDigits (ds : list Z) : Prop :=
  ds <> [] /\ Forall (fun d => 0 <= d <= 9) ds.

(** The calls the cache writers of [parse] make. *)
Definition writerCall (e : Event) : bool :=
  match e with
  | CoordsPut _ | NodesPut _ | WaysPut _ | RelationsPut _ | ProgressAdd _ _ =>
      true
  | _ => false
  end.

(** The calls [main] makes before the phases, the calls of the read
    phase and the calls of the write phase. *)
Definition startCall (e : Event) : bool :=
  match e with
  | LogMsg _ | CacheRemove | CacheOpen | LogFatal _ _ => true
  | _ => false
  end.

Definition readCall (e : Event) : bool :=
  writerCall e
  || match e with
     | CoordsSetLinearImport _ | ProgressReset | CoordsFlush => true
     | _ => false
     end.

Definition writeCall (e : Event) : bool :=
  assemblerCall e
  || match e with
     | ProgressReset | DiffCacheRemove | DiffCacheOpen | DbOpen | DbInit
     | NewInsertBuffer | NewDbWriter | DiffCoordsClose | InsertBufferClose
     | DbWriterClose | LogFatal _ _ => true
     | _ => false
     end.

(** The sum of the progress reported for the counter [k]. *)
Definition sameCounter (k k' : Counter) : bool :=
  match k, k' with
  | CtCoords, CtCoords | CtNodes, CtNodes | CtWays, CtWays
  | CtRelations, CtRelations => true
  | _, _ => false
  end.

Definition countOf (k : Counter) (evs : list Event) : Z :=
  fold_right Z.add 0
    (map snd (List.filter (fun kn => sameCounter k (fst kn)) (progressOf evs))).

(** A call that iterates over a store, builds a geometry or inserts a
    row: the work of the three assemblers. *)
Definition isAssembly (e : Event) : bool :=
  match e with
  | RelationsIterate | WaysIterate | NodesIterate | Insert _ _
  | GeomBuildRelation _ | GeomLineStringWKB _ | GeomPolygonWKB _
  | GeomPointWKB _ | InsertedPutMembers _ | DiffAddFromWay _ => true
  | _ => false
  end.

End Notions.

(** ** A concrete set of collaborators

    Modelled from the spec: the packages cache, mapping, proj and geom
    are not among the sources.  The stores follow section 4.4 of the
    design document: keyed stores iterated in key order; [fill_members]
    loads the way of each way-typed member and returns NotFound when one
    is missing; [fill_way] resolves the node ids into a parallel sequence
    of coords and returns NotFound when one is missing; the inserted-ways
    store is a set of way ids, [put_members] inserts the ids of all
    way-typed members and [is_inserted] queries membership.  The mapping,
    the projection and the geometry builders are small stand-ins: they
    are there to run the driver on examples. *)

Module Model.

Inductive err :=
| ErrNotFound
| ErrLevel (msg : string) (lvl : Z)
| ErrPlain (msg : string).

#[global] Instance err_eq_dec : EqDecision err.
Proof. solve_decision. Defined.

Definition errLevel (e : err) : option Z :=
  match e with
  | ErrLevel _ l => Some l
  | _ => None
  end.

(** The mapping: roads from [highway], buildings from [building],
    land use from [landuse], points of interest from [amenity]; a row
    holds the id and the geometry. *)
Definition hasTag (k : string) (e : OSMElem) : bool :=
  match Tags e !! k with
  | Some _ => true
  | None => false
  end.

Definition lineStrings (e : OSMElem) : list string :=
  if hasTag "highway" e then ["roads"] else [].

Definition polygons (e : OSMElem) : list string :=
  (if hasTag "building" e then ["buildings"] else [])
  ++ (if hasTag "landuse" e then ["landusages"] else []).

Definition points (e : OSMElem) : list string :=
  if hasTag "amenity" e then ["poi"] else [].

Definition mkRow (table : string) (e : OSMElem) : Z * option Geometry :=
  (Id e, Geom e).

(** The stores. *)
Record CoordsStore := {
  coords : gmap Z Node;
  linearImport : bool;
}.

Fixpoint putSorted {A} (key : A -> Z) (x : A) (l : list A) : list A :=
  match l with
  | [] => [x]
  | y :: l' =>
      if key x <? key y then x :: y :: l'
      else if key x =? key y then x :: l'
      else y :: putSorted key x l'
  end.

Definition putAll {A} (key : A -> Z) (xs : list A) (l : list A) : list A :=
  fold_left (fun acc x => putSorted key x acc) xs l.

Definition putCoords (c : CoordsStore) (nds : list Node) : CoordsStore :=
  {| coords :=
       fold_left (fun m n => <[Id (nElem n) := n]> m) nds (coords c);
     linearImport := linearImport c |}.

Definition tagged (n : Node) : bool :=
  negb (bool_decide (Tags (nElem n) = ∅)).

Definition putNodes (l : list Node) (nds : list Node) : list Node * Z :=
  let kept := filter (fun n => tagged n = true) nds in
  (putAll (fun n => Id (nElem n)) kept l, Z.of_nat (length kept)).

Definition zeroNode : Node :=
  {| nElem := {| Id := 0; Tags := ∅; Geom := None |};
     Lat := 0%float; Long := 0%float |}.

Fixpoint fillWay (cc : gmap Z Node) (refs : list Z)
  : list Node * option err :=
  match refs with
  | [] => ([], None)
  | id :: refs' =>
      match cc !! id with
      | Some nd => let (r, e) := fillWay cc refs' in (nd :: r, e)
      | None => (replicate (length refs) zeroNode, Some ErrNotFound)
      end
  end.

Fixpoint fillMembers (ws : list Way) (ms : list Member)
  : list Member * option err :=
  match ms with
  | [] => ([], None)
  | m :: ms' =>
      if isWay (mType m) then
        match find (fun w => Id (wElem w) =? mId m) ws with
        | Some w =>
            let (r, e) := fillMembers ws ms' in (mSetWay m (Some w) :: r, e)
        | None => (m :: ms', Some ErrNotFound)
        end
      else let (r, e) := fillMembers ws ms' in (m :: r, e)
  end.

Definition putMembers (iw : gset Z) (ms : list Member)
  : gset Z * option err :=
  (iw ∪ list_to_set (map mId (filter (fun m => isWay (mType m) = true) ms)),
   None).

Definition isInserted (iw : gset Z) (id : Z) : bool * option err :=
  (bool_decide (id ∈ iw), None).

Definition Cache : Type :=
  cache.OSMCacheOf CoordsStore (list Node) (list Way) (list Relation)
    (gset Z).

Definition emptyCache : Cache :=
  cache.mk {| coords := ∅; linearImport := false |} [] [] [] ∅.

Definition exists_ (c : Cache) : bool :=
  negb (bool_decide (coords (cache.Coords c) = ∅))
  || some (cache.Nodes c) || some (cache.Ways c) || some (cache.Relations c).

(** The projection: a linear stand-in for the forward transform. *)
Definition toMerc (n : Node) : Node :=
  {| nElem := nElem n;
     Lat := PrimFloat.mul (Lat n) 111319.5%float;
     Long := PrimFloat.mul (Long n) 111319.5%float |}.

(** The builders.  A line string needs two points (an error of level 0
    otherwise); a ring needs three distinct node ids (an error of level 1
    otherwise); a point must lie inside the projected frame (an error
    without a level otherwise); a relation needs a way, and every member
    way present and closed. *)
Definition lineStringWKB (nds : list Node) : option Geometry * option err :=
  if (length nds <? 2)%nat then
    (None, Some (ErrLevel "line string needs two points" 0))
  else (Some {| Wkb := [Byte.x02] |}, None).

Definition polygonWKB (nds : list Node) : option Geometry * option err :=
  if (size (list_to_set (map (fun n => Id (nElem n)) nds) : gset Z) <? 3)%nat
  then
    (None, Some (ErrLevel "ring needs three distinct points" 1))
  else (Some {| Wkb := [Byte.x03] |}, None).

Definition pointWKB (n : Node) : option Geometry * option err :=
  if PrimFloat.ltb 20037508.5%float (PrimFloat.abs (Lat n)) then
    (None, Some (ErrPlain "point outside of the projected frame"))
  else (Some {| Wkb := [Byte.x01] |}, None).

Definition buildRelation (r : Relation) : Relation * option err :=
  let ways := filter (fun m => isWay (mType m) = true) (Members r) in
  if negb (some ways) then
    (r, Some (ErrLevel "relation without ways" 0))
  else if forallb (fun m => match mWay m with
                            | Some w => IsClosed w
                            | None => false
                            end) ways
  then ({| rElem := setGeom (rElem r) (Some {| Wkb := [Byte.x06] |});
           Members := Members r |}, None)
  else (r, Some (ErrPlain "ring is not closed")).

#[global] Instance model : Collaborators := {|
  error := err;
  NotFound := ErrNotFound;
  Level := errLevel;
  Match := string;
  row := Z * option Geometry;
  Table := fun m => m;
  Row := mkRow;
  NewMapping := fun _ => None;
  WayTagFilter := fun t => t;
  RelationTagFilter := fun t => t;
  NodeTagFilter := fun t => t;
  PointMatcher := points;
  LineStringMatcher := lineStrings;
  PolygonMatcher := polygons;
  CoordsCache := CoordsStore;
  NodesCache := list Node;
  WaysCache := list Way;
  RelationsCache := list Relation;
  InsertedWaysCache := gset Z;
  Exists := exists_;
  Remove := fun _ => (emptyCache, None);
  Open := fun c => (c, None);
  SetLinearImport := fun c b => {| coords := coords c; linearImport := b |};
  Flush := fun c => c;
  PutCoords := putCoords;
  PutNodes := putNodes;
  PutWays := fun l ws => putAll (fun w => Id (wElem w)) ws l;
  PutRelations := fun l rs => putAll (fun r => Id (rElem r)) rs l;
  RelationsIter := fun l => l;
  WaysIter := fun l => l;
  NodesIter := fun l => l;
  FillMembers := fillMembers;
  FillWay := fun c refs => fillWay (coords c) refs;
  PutMembers := putMembers;
  IsInserted := isInserted;
  DiffRemove := fun _ => None;
  DiffOpen := fun _ => None;
  NodesToMerc := map toMerc;
  NodeToMerc := toMerc;
  BuildRelation := buildRelation;
  LineStringWKB := lineStringWKB;
  PolygonWKB := polygonWKB;
  PointWKB := pointWKB;
  DatabaseOpen := fun _ => None;
  DatabaseInit := None;
|}.

(** The same collaborators behind a broken installation: the ways store
    cannot be read (an error that is not NotFound) and the database
    refuses the connection. *)
Definition faulty : Collaborators := {|
  error := err;
  NotFound := ErrNotFound;
  Level := errLevel;
  Match := string;
  row := Z * option Geometry;
  Table := fun m => m;
  Row := mkRow;
  NewMapping := fun _ => None;
  WayTagFilter := fun t => t;
  RelationTagFilter := fun t => t;
  NodeTagFilter := fun t => t;
  PointMatcher := points;
  LineStringMatcher := lineStrings;
  PolygonMatcher := polygons;
  CoordsCache := CoordsStore;
  NodesCache := list Node;
  WaysCache := list Way;
  RelationsCache := list Relation;
  InsertedWaysCache := gset Z;
  Exists := exists_;
  Remove := fun _ => (emptyCache, None);
  Open := fun c => (c, None);
  SetLinearImport := fun c b => {| coords := coords c; linearImport := b |};
  Flush := fun c => c;
  PutCoords := putCoords;
  PutNodes := putNodes;
  PutWays := fun l ws => putAll (fun w => Id (wElem w)) ws l;
  PutRelations := fun l rs => putAll (fun r => Id (rElem r)) rs l;
  RelationsIter := fun l => l;
  WaysIter := fun l => l;
  NodesIter := fun l => l;
  FillMembers := fun _ ms => (ms, Some (ErrPlain "ways cache unreadable"));
  FillWay := fun c refs => fillWay (coords c) refs;
  PutMembers := putMembers;
  IsInserted := isInserted;
  DiffRemove := fun _ => None;
  DiffOpen := fun _ => None;
  NodesToMerc := map toMerc;
  NodeToMerc := toMerc;
  BuildRelation := buildRelation;
  LineStringWKB := lineStringWKB;
  PolygonWKB := polygonWKB;
  PointWKB := pointWKB;
  DatabaseOpen := fun _ => Some (ErrPlain "connection refused");
  DatabaseInit := None;
|}.

End Model.

(** ** Example data for the concrete collaborators *)

Module Examples.

Import Model.

Definition nd (id : Z) (lon lat : float) : Node :=
  {| nElem := {| Id := id; Tags := ∅; Geom := None |};
     Lat := lat; Long := lon |}.

Definition way (id : Z) (tags : list (string * string)) (refs : list Z)
  : Way :=
  {| wElem := {| Id := id; Tags := list_to_map tags; Geom := None |};
     Refs := refs; Nodes := [] |}.

Definition noCoords : CoordsStore := {| coords := ∅; linearImport := false |}.

(** Coords 1, 2 and 3. *)
Definition coords3 : CoordsStore :=
  putCoords noCoords
    [nd 1 0%float 0%float; nd 2 1%float 1%float; nd 3 1%float 0%float].

Definition cache3 : @OSMCache model := cache.mk coords3 [] [] [] ∅.

(** A state whose heap holds [w] behind pointer 0. *)
Definition at0 (c : @OSMCache model) (w : Way) : State := mkState c {[ 0%nat := w ]} [].

(** A road with two nodes. *)
Definition road : Way := way 100 [("highway", "residential")] [1; 2].

(** A closed way with three distinct nodes, both a road and a building. *)
Definition triangle : Way :=
  way 200 [("building", "yes"); ("highway", "pedestrian")] [1; 2; 3; 1].

(** A road with a single node: the line-string builder fails. *)
Definition stub : Way :=
  way 101 [("highway", "path"); ("building", "yes")] [1].

(** A closed way that runs out and back: the polygon builder fails. *)
Definition spike : Way :=
  way 300 [("building", "yes"); ("highway", "service")] [1; 2; 2; 1].

(** Three node ids, the first equal to the last. *)
Definition flat : Way := way 201 [("building", "yes")] [1; 2; 1].

(** An open ring, and a way one of whose coords (9) is missing. *)
Definition openRing : Way := way 50 [] [1; 2; 3].

Definition gap : Way := way 60 [] [2; 9].

Definition member (id : Z) (role : string) (w : option Way) : Member :=
  {| mId := id; mType := WAY; Role := role; mWay := w |}.

Definition relation (id : Z) (tags : list (string * string))
  (ms : list Member) : Relation :=
  {| rElem := {| Id := id; Tags := list_to_map tags; Geom := None |};
     Members := ms |}.

(** A forest whose outer ring is the triangle; a forest whose outer ring
    is open, so that the builder fails; one whose ring misses a coord. *)
Definition forest : Relation :=
  relation 1 [("type", "multipolygon"); ("landuse", "forest")]
    [member 200 "outer" None].

Definition grove : Relation :=
  relation 2 [("type", "multipolygon"); ("landuse", "forest")]
    [member 50 "outer" None].

Definition copse : Relation :=
  relation 3 [("type", "multipolygon"); ("landuse", "forest")]
    [member 60 "outer" None].

(** A cache with the three coords, the ways and the relations above. *)
Definition cacheR : @OSMCache model :=
  cache.mk coords3 [] [openRing; gap; triangle] [forest; grove; copse] ∅.

Definition start (c : @OSMCache model) : State := mkState c ∅ [].

(** The cache after the relation assembler has marked way 200. *)
Definition cacheM : @OSMCache model :=
  cache.mk coords3 [] [openRing; gap; triangle] [forest; grove; copse]
    {[ 200 ]}.

(** A cafe inside the projected frame and one outside of it. *)
Definition cafe : Node :=
  {| nElem := {| Id := 7; Tags := {[ "amenity" := "cafe" ]}; Geom := None |};
     Lat := 50%float; Long := 10%float |}.


(** A run that reads and then writes, with diff on. *)
Definition flags : Flags :=
  {| cachedir := "/tmp/goposm"; overwritecache := false;
     appendcache := false; read := "planet.osm.pbf"; write := true;
     connection := "postgis://localhost/osm"; diff := true;
     mappingFile := "mapping.json" |}.

Definition batches : list Batch :=
  [BCoords [nd 1 0%float 0%float; nd 2 1%float 1%float];
   BWays [road; triangle];
   BCoords [nd 3 1%float 0%float];
   BNodes [cafe];
   BRelations [forest]].

Definition setenv (k v : string) : Environ :=
  fun x => if String.eqb x k then v else "".

(** The rows inserted and the errors logged by a list of calls. *)
Definition inserts (evs : list (@Event model))
  : list (string * (Z * option Geometry)) :=
  flat_map (fun e => match e with
                     | Insert t r => [(t, r : Z * option Geometry)]
                     | _ => []
                     end) evs.

Definition logs (evs : list (@Event model)) : list err :=
  flat_map (fun e => match e with
                     | LogPrintln x => [x : err]
                     | _ => []
                     end) evs.

(** The geometry of every way record of a heap. *)
Definition geoms (h : gmap loc Way) : list (loc * option Geometry) :=
  map_to_list ((Geom ∘ wElem) <$> h).

(** A route relation over the triangle: no polygon rule matches it. *)
Definition route : Relation :=
  relation 4 [("type", "route"); ("route", "hiking")]
    [member 200 "" None].

(** A track one of whose coords (9) is missing. *)
Definition deadEnd : Way := way 61 [("highway", "track")] [2; 9].


Definition flagsWrite : Flags :=
  {| cachedir := "/tmp/goposm"; overwritecache := true;
     appendcache := false; read := ""; write := true;
     connection := "postgis://localhost/osm"; diff := true;
     mappingFile := "mapping.json" |}.

Definition flagsRead : Flags :=
  {| cachedir := "/tmp/goposm"; overwritecache := true;
     appendcache := false; read := "planet.osm.pbf"; write := false;
     connection := ""; diff := false; mappingFile := "mapping.json" |}.

(** The example cache and a start state for the broken installation. *)
Definition cacheF : @OSMCache faulty :=
  cache.mk coords3 [] [openRing; gap; triangle] [forest; grove; copse] ∅.

Definition startF (c : @OSMCache faulty) : @State faulty := mkState c ∅ [].

(** The ids of the relations, ways and nodes in progress reports. *)
Definition reports (evs : list (@Event model)) : list (Counter * Z) :=
  progressOf evs.


End Examples.

(** ** Running the monad *)

Ltac run_step :=
  unfold bind, emit, load, store, alloc, getCache, setCache, continue, ret,
    fatal, check; simpl.

Ltac tidy_trace := rewrite <- ?app_assoc; simpl.

Section CallLists.

Context {C : Collaborators}.

Lemma existsb_logged (f : Event -> bool) e :
  (forall e', f (LogPrintln e') = false) -> existsb f (logged e) = false.
Proof. intros Hf. unfold logged. destruct (silent e); simpl; by rewrite ?Hf. Qed.

Lemma existsb_rowsOf (f : Event -> bool) ms x :
  (forall t r, f (Insert t r) = false) -> existsb f (rowsOf ms x) = false.
Proof.
  intros Hf. unfold rowsOf. induction ms; simpl; [done|]. by rewrite Hf.
Qed.

Lemma forallb_logged (q : Event -> bool) e :
  (forall e', q (LogPrintln e') = true) -> forallb q (logged e) = true.
Proof. intros Hq. unfold logged. destruct (silent e); simpl; by rewrite ?Hq. Qed.

Lemma forallb_rowsOf (q : Event -> bool) ms x :
  (forall t r, q (Insert t r) = true) -> forallb q (rowsOf ms x) = true.
Proof.
  intros Hq. unfold rowsOf. induction ms; simpl; [done|]. by rewrite Hq.
Qed.

End CallLists.

Ltac calls_tac :=
  repeat first
    [ progress simpl
    | rewrite forallb_app
    | rewrite forallb_logged by done
    | rewrite forallb_rowsOf by done
    | case_match ];
  try done.

Ltac among_tac :=
  intros ? ?; repeat (rewrite elem_of_cons, ?elem_of_nil in * ); tauto.

Ltac no_calls_tac :=
  repeat first
    [ progress simpl
    | rewrite existsb_app
    | rewrite existsb_logged by done
    | rewrite existsb_rowsOf by done
    | case_match ];
  try done.

Section Runs.

Context {C : Collaborators}.
Local Open Scope go_scope.

Lemma state_eta (s : State) : mkState (osmCache s) (heap s) (trace s) = s.
Proof. by destruct s. Qed.

Lemma bind_val {A B} (m : M A) (f : A -> M B) s a s' :
  m s = (Val a, s') -> bind m f s = f a s'.
Proof. unfold bind. by intros ->. Qed.

Lemma bind_continue {A B} (m : M A) (f : A -> M B) s s' :
  m s = (Continue, s') -> bind m f s = (Continue, s').
Proof. unfold bind. by intros ->. Qed.

Lemma bind_exit {A B} (m : M A) (f : A -> M B) s s' :
  m s = (Exit, s') -> bind m f s = (Exit, s').
Proof. unfold bind. by intros ->. Qed.

Lemma bind_getCache {B} (f : OSMCache -> M B) s :
  bind getCache f s = f (osmCache s) s.
Proof. done. Qed.

Lemma bind_emit {B} e (f : unit -> M B) s :
  bind (emit e) f s
  = f tt (mkState (osmCache s) (heap s) (trace s ++ [e])).
Proof. done. Qed.

Lemma for_each_val {A} (x : A) xs body s s' :
  body x s = (Val tt, s') -> for_each (x :: xs) body s = for_each xs body s'.
Proof. simpl. by intros ->. Qed.


Lemma calls_spec {A} (m : M A) s evs :
  trace (snd (m s)) = trace s ++ evs -> calls m s = evs.
Proof.
  unfold calls. intros ->. by rewrite drop_app_length.
Qed.

Lemma insertRows_run matches e s :
  insertRows matches e s
  = (Val tt, mkState (osmCache s) (heap s) (trace s ++ rowsOf matches e)).
Proof.
  unfold insertRows, rowsOf. revert s.
  induction matches as [|m ms IH]; intros s; simpl.
  - by rewrite app_nil_r, state_eta.
  - unfold emit at 1. rewrite IH. simpl. by rewrite <- app_assoc.
Qed.

Lemma skipOnError_run {A} e s :
  skipOnError (A := A) e s
  = (Continue, mkState (osmCache s) (heap s) (trace s ++ logged e)).
Proof.
  unfold skipOnError, logged, silent, bind, emit, continue, ret.
  destruct (Level e) as [l|]; [destruct (l <=? 0)|]; simpl;
    by rewrite ?app_nil_r, ?state_eta.
Qed.

Lemma fresh_heap_ne (h : gmap loc Way) p w :
  h !! p = Some w -> fresh (dom h) <> p.
Proof.
  intros Hp Heq. apply (is_fresh (dom h)). rewrite Heq.
  apply elem_of_dom. eauto.
Qed.

(** *** The way assembler, part by part *)

Lemma wayPrepare_run p s w0 :
  heap s !! p = Some w0 ->
  wayPrepare p s =
    let id := Id (wElem w0) in
    let t1 := trace s ++ [ProgressAdd CtWays 1; InsertedIsInserted id] in
    let w1 :=
      wSetNodes w0 (fst (FillWay (cache.Coords (osmCache s)) (Refs w0))) in
    match IsInserted (cache.InsertedWays (osmCache s)) id with
    | (_, Some e) =>
        (Continue, mkState (osmCache s) (heap s) (t1 ++ [LogPrintln e]))
    | (true, None) => (Continue, mkState (osmCache s) (heap s) t1)
    | (false, None) =>
        match snd (FillWay (cache.Coords (osmCache s)) (Refs w0)) with
        | Some _ =>
            (Continue,
             mkState (osmCache s) (<[p := w1]> (heap s))
               (t1 ++ [CoordsFillWay id]))
        | None =>
            (Val tt,
             mkState (osmCache s) (<[p := project w1]> (heap s))
               (t1 ++ [CoordsFillWay id]))
        end
    end.
Proof.
  intros Hp. unfold wayPrepare. run_step. rewrite Hp. simpl.
  destruct (IsInserted _ _) as [[|] [e|]]; simpl; tidy_trace; try done.
  destruct (FillWay _ _) as [nds [e|]]; simpl; tidy_trace; try done.
  rewrite lookup_insert_eq. simpl. by rewrite insert_insert_eq.
Qed.

Lemma wayLineStrings_run p s w2 :
  heap s !! p = Some w2 ->
  wayLineStrings p s =
    let matches := LineStringMatcher (wElem w2) in
    if some matches then
      let way := fresh (dom (heap s)) in
      let g := fst (LineStringWKB (Nodes w2)) in
      let h := <[way := wSetGeom w2 g]> (heap s) in
      let t := trace s ++ [GeomLineStringWKB (Nodes w2)] in
      match snd (LineStringWKB (Nodes w2)) with
      | Some e => (Continue, mkState (osmCache s) h (t ++ logged e))
      | None =>
          (Val tt,
           mkState (osmCache s) h (t ++ rowsOf matches (setGeom (wElem w2) g)))
      end
    else (Val tt, s).
Proof.
  intros Hp. unfold wayLineStrings. run_step. rewrite Hp. simpl.
  destruct (some _); [|done].
  rewrite Hp. simpl. rewrite lookup_insert_eq. simpl.
  destruct (LineStringWKB _) as [g [e|]]; simpl.
  - rewrite skipOnError_run. simpl. by rewrite insert_insert_eq.
  - rewrite lookup_insert_eq, insertRows_run. simpl.
    by rewrite insert_insert_eq.
Qed.

Lemma wayPolygons_run p s w3 :
  heap s !! p = Some w3 ->
  wayPolygons p s =
    let matches := PolygonMatcher (wElem w3) in
    if IsClosed w3 && some matches then
      let way := fresh (dom (heap s)) in
      let g := fst (PolygonWKB (Nodes w3)) in
      let h := <[way := wSetGeom w3 g]> (heap s) in
      let t := trace s ++ [GeomPolygonWKB (Nodes w3)] in
      match snd (PolygonWKB (Nodes w3)) with
      | Some e => (Continue, mkState (osmCache s) h (t ++ logged e))
      | None =>
          (Val tt,
           mkState (osmCache s) h (t ++ rowsOf matches (setGeom (wElem w3) g)))
      end
    else (Val tt, s).
Proof.
  intros Hp. unfold wayPolygons. run_step. rewrite Hp. simpl.
  destruct (IsClosed w3); [|done]. simpl.
  destruct (some _); [|done].
  rewrite Hp. simpl. rewrite lookup_insert_eq. simpl.
  destruct (PolygonWKB _) as [g [e|]]; simpl.
  - rewrite skipOnError_run. simpl. by rewrite insert_insert_eq.
  - rewrite lookup_insert_eq, insertRows_run. simpl.
    by rewrite insert_insert_eq.
Qed.

Lemma wayDiff_run diff p s w4 :
  heap s !! p = Some w4 ->
  wayDiff diff p s =
    (Val tt,
     mkState (osmCache s) (heap s)
       (trace s ++ if diff then [DiffAddFromWay w4] else [])).
Proof.
  intros Hp. unfold wayDiff. destruct diff; run_step.
  - by rewrite Hp.
  - by rewrite app_nil_r, state_eta.
Qed.

Lemma polygons_then_diff_run diff p s w2 :
  heap s !! p = Some w2 ->
  exists o h,
    bind (wayPolygons p) (fun _ => wayDiff diff p) s
    = (o, mkState (osmCache s) h
            (trace s ++ polygonCalls w2
             ++ (if polygonsPass w2 then
                   if diff then [DiffAddFromWay w2] else []
                 else [])))
    /\ o <> Exit.
Proof.
  intros Hp. unfold bind.
  rewrite (wayPolygons_run _ _ _ Hp). cbv zeta.
  unfold polygonCalls, polygonsPass.
  destruct (IsClosed w2 && some _); cbn [negb orb].
  - destruct (snd (PolygonWKB _)) as [e|].
    + rewrite bool_decide_eq_false_2 by done.
      do 2 eexists. split; [by rewrite app_nil_r; tidy_trace | done].
    + erewrite wayDiff_run.
      * rewrite bool_decide_eq_true_2 by done. cbn [osmCache heap trace].
        do 2 eexists. split; [by tidy_trace | done].
      * cbn [heap]. rewrite lookup_insert_ne; [done|].
        eapply fresh_heap_ne; exact Hp.
  - rewrite (wayDiff_run _ _ _ _ Hp). do 2 eexists. by split.
Qed.

Lemma wayBody_run diff p s w0 :
  heap s !! p = Some w0 ->
  exists o h,
    wayBody diff p s
    = (o, mkState (osmCache s) h (trace s ++ wayCalls diff (osmCache s) w0))
    /\ o <> Exit.
Proof.
  intros Hp. unfold wayBody, wayCalls. unfold bind at 1.
  rewrite (wayPrepare_run _ _ _ Hp). cbv zeta.
  set (id := Id (wElem w0)).
  set (w2 := project _). clearbody w2 id.
  destruct (IsInserted _ _) as [[|] [e|]];
    try (do 2 eexists; split; [by tidy_trace | done]).
  destruct (snd (FillWay _ _)) as [e|];
    [do 2 eexists; split; [by tidy_trace | done]|].
  unfold bind at 1.
  erewrite (wayLineStrings_run _ _ w2) by (cbn [heap]; apply lookup_insert_eq).
  cbv zeta. cbn [heap osmCache trace].
  unfold lineStringCalls, lineStringsPass.
  set (h0 := <[p := w2]> (heap s)).
  assert (Hp0 : h0 !! p = Some w2) by apply lookup_insert_eq.
  destruct (some (LineStringMatcher _)); cbn [negb orb].
  - destruct (snd (LineStringWKB _)) as [e|].
    + rewrite bool_decide_eq_false_2 by done.
      do 2 eexists. split; [by rewrite app_nil_r; tidy_trace | done].
    + match goal with
      | |- context [bind (wayPolygons p) _ ?s1] =>
          destruct (polygons_then_diff_run diff p s1 w2) as (o & h & -> & Ho)
      end.
      { cbn [heap]. rewrite lookup_insert_ne; [done|].
        eapply fresh_heap_ne; exact Hp0. }
      rewrite bool_decide_eq_true_2 by done. cbn [osmCache heap trace].
      do 2 eexists. split; [by tidy_trace | done].
  - match goal with
    | |- context [bind (wayPolygons p) _ ?s1] =>
        destruct (polygons_then_diff_run diff p s1 w2) as (o & h & -> & Ho)
    end; [done|].
    cbn [osmCache heap trace].
    do 2 eexists. split; [by tidy_trace | done].
Qed.

(** *** The relation assembler and the node assembler *)

Lemma fillMember_run m s :
  fillMember m s
  = (Val (filled (cache.Coords (osmCache s)) m),
     mkState (osmCache s) (heap s)
       (trace s ++ fillCalls (cache.Coords (osmCache s)) m)).
Proof.
  unfold fillMember, filled, fillCalls.
  destruct (mWay m) as [w|]; run_step.
  - destruct (FillWay _ _) as [nds [e|]]; simpl;
      [destruct (decide (e = NotFound))|]; run_step; by tidy_trace.
  - by rewrite app_nil_r, state_eta.
Qed.

Lemma mapM_fillMember_run ms s :
  mapM fillMember ms s
  = (Val (map (filled (cache.Coords (osmCache s))) ms),
     mkState (osmCache s) (heap s)
       (trace s ++ flat_map (fillCalls (cache.Coords (osmCache s))) ms)).
Proof.
  revert s. induction ms as [|m ms IH]; intros s; simpl.
  - unfold ret. by rewrite app_nil_r, state_eta.
  - unfold bind at 1. rewrite fillMember_run.
    unfold bind at 1. rewrite IH. cbn [osmCache heap trace ret].
    by tidy_trace.
Qed.

Lemma assembleRelation_run r s :
  assembleRelation r s
  = (match handed (osmCache s) r with
     | Some r1 => Val (BuildRelation r1)
     | None => Continue
     end,
     mkState (osmCache s) (heap s)
       (trace s ++ assembleCalls (osmCache s) r)).
Proof.
  unfold assembleRelation, handed, assembleCalls, handed. run_step.
  destruct (FillMembers _ _) as [ms [e|]]; simpl;
    [destruct (decide (e = NotFound))|]; run_step;
    rewrite ?mapM_fillMember_run; simpl; by tidy_trace.
Qed.

Lemma relationBody_run r s :
  exists o,
    relationBody r s
    = (o, mkState (relationCache (osmCache s) r) (heap s)
            (trace s ++ relationCalls (osmCache s) r))
    /\ o <> Exit.
Proof.
  unfold relationBody, relationCalls, relationCache, marking, assembled,
    markCalls.
  unfold bind at 1. rewrite assembleRelation_run.
  destruct (handed _ _) as [r1|];
    [|eexists; split; [by rewrite app_nil_r | done]].
  destruct (BuildRelation r1) as [r2 [e|]]; cbn [fst snd].
  - unfold bind at 1. rewrite skipOnError_run. cbn [osmCache heap trace].
    eexists. split; [by tidy_trace | done].
  - run_step. destruct (some (PolygonMatcher _)).
    + rewrite insertRows_run. cbn [osmCache heap trace].
      destruct (PutMembers _ _) as [iw [e|]]; simpl;
        (eexists; split; [by tidy_trace | done]).
    + eexists. split; [by rewrite app_nil_r | done].
Qed.

Lemma nodeBody_run n s :
  exists o,
    nodeBody n s
    = (o, mkState (osmCache s) (heap s) (trace s ++ nodeCalls n))
    /\ o <> Exit.
Proof.
  unfold nodeBody, nodeCalls. run_step.
  destruct (some (PointMatcher _)).
  - run_step. destruct (PointWKB _) as [g [e|]]; cbn [fst snd].
    + unfold bind. rewrite skipOnError_run. cbn [osmCache heap trace].
      eexists. split; [by tidy_trace | done].
    + run_step. rewrite insertRows_run. cbn [osmCache heap trace].
      eexists. split; [by tidy_trace | done].
  - eexists. split; [done | done].
Qed.

(** *** The passes *)

Lemma for_each_run {A} (body : A -> M unit)
  (step : OSMCache -> A -> OSMCache)
  (callsOf : OSMCache -> A -> list Event) :
  (forall x s, exists o h,
     body x s
     = (o, mkState (step (osmCache s) x) h
             (trace s ++ callsOf (osmCache s) x))
     /\ o <> Exit) ->
  forall xs s, exists h,
    for_each xs body s
    = (Val tt,
       mkState (fold_left step xs (osmCache s)) h
         (trace s ++ passCalls step callsOf (osmCache s) xs)).
Proof.
  intros Hbody xs. induction xs as [|x xs IH]; intros s; simpl.
  - exists (heap s). unfold ret. by rewrite app_nil_r, state_eta.
  - destruct (Hbody x s) as (o & h & -> & Ho).
    destruct (IH (mkState (step (osmCache s) x) h
                    (trace s ++ callsOf (osmCache s) x))) as (h' & IH').
    exists h'. cbn [osmCache heap trace] in IH'.
    destruct o; [| |done]; rewrite IH'; by tidy_trace.
Qed.

Lemma passCalls_flat_map {A} (callsOf : OSMCache -> A -> list Event) c xs :
  passCalls (fun c _ => c) callsOf c xs = flat_map (callsOf c) xs.
Proof. induction xs as [|x xs IH]; simpl; [done|]. by rewrite IH. Qed.

Lemma fold_left_const {A B} (c : B) (xs : list A) :
  fold_left (fun c _ => c) xs c = c.
Proof. induction xs; simpl; done. Qed.

Lemma relationPass_run s :
  exists h,
    relationPass s
    = (Val tt,
       mkState
         (fold_left relationCache
            (RelationsIter (cache.Relations (osmCache s))) (osmCache s))
         h (trace s ++ relationPassCalls (osmCache s))).
Proof.
  unfold relationPass, relationPassCalls. run_step.
  destruct (for_each_run relationBody relationCache relationCalls) with
    (xs := RelationsIter (cache.Relations (osmCache s)))
    (s := mkState (osmCache s) (heap s) (trace s ++ [RelationsIterate]))
    as (h & Hrun).
  - intros x s1. destruct (relationBody_run x s1) as (o & -> & Ho). eauto.
  - rewrite Hrun. exists h. cbn [osmCache heap trace]. by tidy_trace.
Qed.

Lemma wayPass_run diff s :
  exists h,
    wayPass diff s
    = (Val tt,
       mkState (osmCache s) h (trace s ++ wayPassCalls diff (osmCache s))).
Proof.
  unfold wayPass, wayPassCalls. rewrite bind_getCache, bind_emit.
  destruct (for_each_run
              (fun x => bind (alloc x) (fun w => wayBody diff w))
              (fun c _ => c) (wayCalls diff)) with
    (xs := WaysIter (cache.Ways (osmCache s)))
    (s := mkState (osmCache s) (heap s) (trace s ++ [WaysIterate]))
    as (h & Hrun).
  - intros x s1. unfold bind at 1. unfold alloc.
    destruct (wayBody_run diff (fresh (dom (heap s1)))
                (mkState (osmCache s1) (<[fresh (dom (heap s1)) := x]> (heap s1))
                   (trace s1)) x) as (o & h & -> & Ho).
    + apply lookup_insert_eq.
    + eauto.
  - rewrite Hrun. exists h. cbn [osmCache heap trace].
    rewrite fold_left_const, passCalls_flat_map. by tidy_trace.
Qed.

Lemma nodePass_run s :
  exists h,
    nodePass s
    = (Val tt,
       mkState (osmCache s) h (trace s ++ nodePassCalls (osmCache s))).
Proof.
  unfold nodePass, nodePassCalls. run_step.
  destruct (for_each_run nodeBody (fun c _ => c) (fun _ => nodeCalls)) with
    (xs := NodesIter (cache.Nodes (osmCache s)))
    (s := mkState (osmCache s) (heap s) (trace s ++ [NodesIterate]))
    as (h & Hrun).
  - intros x s1. destruct (nodeBody_run x s1) as (o & -> & Ho). eauto.
  - rewrite Hrun. exists h. cbn [osmCache heap trace].
    rewrite fold_left_const, passCalls_flat_map. by tidy_trace.
Qed.

(** *** The phases *)

Lemma writeBatch_run g b s :
  exists o,
    writeBatch g b s
    = (o, mkState (batchCache g (osmCache s) b) (heap s)
            (trace s ++ batchCalls g (osmCache s) b))
    /\ o <> Exit.
Proof.
  destruct b as [nds|nds|ws|rels]; simpl;
    unfold writeCoords, writeNodes, writeWays, writeRelations.
  - destruct (skipCoords g); run_step.
    + eexists. split; [by rewrite app_nil_r, state_eta | done].
    + eexists. split; [by tidy_trace | done].
  - destruct (skipNodes g); run_step.
    + eexists. split; [by rewrite app_nil_r, state_eta | done].
    + destruct (PutNodes _ _) as [nc n]. simpl.
      eexists. split; [by tidy_trace | done].
  - destruct (skipWays g); run_step.
    + eexists. split; [by rewrite app_nil_r, state_eta | done].
    + eexists. split; [by tidy_trace | done].
  - run_step. eexists. split; [by tidy_trace | done].
Qed.

Lemma parse_run g sched s :
  exists h,
    parse g sched s
    = (Val tt,
       mkState (fold_left (batchCache g) sched (osmCache s)) h
         (trace s ++ parseCalls g sched (osmCache s))).
Proof.
  unfold parse, parseCalls. apply for_each_run.
  intros b s1. destruct (writeBatch_run g b s1) as (o & -> & Ho). eauto.
Qed.

Lemma readPhase_run g sched s :
  exists h,
    readPhase g sched s
    = (Val tt,
       mkState (readCache g sched (osmCache s)) h
         (trace s ++ readCalls g sched (osmCache s))).
Proof.
  unfold readPhase, readCache, readCalls, linearOn.
  rewrite bind_getCache. unfold bind at 1. unfold setCache at 1.
  rewrite bind_emit. cbn [osmCache heap trace].
  unfold bind at 1.
  match goal with
  | |- context [parse g sched ?s1] =>
      destruct (parse_run g sched s1) as (h & ->)
  end.
  cbn [osmCache heap trace]. exists h. run_step. by tidy_trace.
Qed.

Lemma assemble_run fl s :
  exists h,
    assemble fl s
    = (Val tt,
       mkState (relationsDone (osmCache s)) h
         (trace s ++ assemblyCalls fl (osmCache s))).
Proof.
  unfold assemble, assemblyCalls, relationsDone.
  unfold bind at 1. destruct (relationPass_run s) as (h1 & ->).
  unfold bind at 1.
  match goal with
  | |- context [wayPass ?d ?s1] =>
      destruct (wayPass_run d s1) as (h2 & ->)
  end.
  rewrite bind_emit. unfold bind at 1.
  match goal with
  | |- context [nodePass ?s1] => destruct (nodePass_run s1) as (h3 & ->)
  end.
  cbn [osmCache heap trace]. exists h3. run_step. by tidy_trace.
Qed.

Lemma writePhase_run fl s :
  exists h,
    writePhase fl s
    = (if sinkOpens fl then Val tt else Exit,
       mkState (writeCache fl (osmCache s)) h
         (trace s ++ writeCalls fl (osmCache s))).
Proof.
  unfold writePhase, writeCache, writeCalls, sinkCalls, sinkOpens.
  rewrite !bind_emit. cbn [osmCache heap trace].
  destruct (DiffRemove _) as [e|]; cbn [check bool_decide andb].
  { exists (heap s). unfold fatal. cbn [osmCache heap trace].
    rewrite bool_decide_eq_false_2 by done. by tidy_trace. }
  rewrite bind_emit. cbn [osmCache heap trace].
  destruct (DiffOpen _) as [e|]; cbn [check].
  { exists (heap s). unfold fatal. cbn [osmCache heap trace].
    rewrite (bool_decide_eq_false_2 (Some e = None)) by done.
    rewrite andb_false_r. by tidy_trace. }
  rewrite bind_emit. cbn [osmCache heap trace].
  destruct (DatabaseOpen _) as [e|]; cbn [check].
  { exists (heap s). unfold fatal. cbn [osmCache heap trace].
    rewrite (bool_decide_eq_false_2 (Some e = None)) by done.
    rewrite andb_false_r. by tidy_trace. }
  rewrite bind_emit. cbn [osmCache heap trace].
  destruct DatabaseInit as [e|]; cbn [check].
  { exists (heap s). unfold fatal. cbn [osmCache heap trace].
    rewrite (bool_decide_eq_false_2 (Some e = None)) by done.
    rewrite andb_false_r. by tidy_trace. }
  rewrite !bind_emit. cbn [osmCache heap trace].
  match goal with
  | |- context [assemble fl ?s1] => destruct (assemble_run fl s1) as (h & ->)
  end.
  rewrite !bool_decide_eq_true_2 by done.
  cbn [osmCache heap trace andb]. exists h. by tidy_trace.
Qed.

Lemma startup_run fl s (k : M unit) :
  let '(ev, c1, ok) := startup fl (osmCache s) in
  bind getCache (fun c =>
    bind (if nonempty (read fl) && Exists c then
            if overwritecache fl then
              bind (emit (LogMsg "removing existing cache")) (fun _ =>
              bind (emit CacheRemove) (fun _ =>
              let (c', err) := Remove c in
              bind (setCache c') (fun _ =>
              check "unable to remove cache:" err (ret tt))))
            else if negb (appendcache fl) then
              fatal
                "cache already exists use -appendcache or -overwritecache"
                None
            else ret tt
          else ret tt) (fun _ =>
    bind getCache (fun c =>
    bind (emit CacheOpen) (fun _ =>
    bind (let (c', err) := Open c in
          bind (setCache c') (fun _ => check "" err (ret tt))) (fun _ =>
    check "" (NewMapping (mappingFile fl)) k))))) s
  = if ok : bool then k (mkState c1 (heap s) (trace s ++ ev))
    else (Exit, mkState c1 (heap s) (trace s ++ ev)).
Proof.
  unfold startup. rewrite bind_getCache.
  destruct (nonempty (read fl) && Exists (osmCache s)).
  - destruct (overwritecache fl).
    + run_step. destruct (Remove _) as [c' [e|]]; simpl.
      * by tidy_trace.
      * destruct (Open c') as [c2 [e|]]; simpl; [by tidy_trace|].
        destruct (NewMapping _); run_step; by tidy_trace.
    + destruct (appendcache fl); simpl.
      * run_step. destruct (Open _) as [c2 [e|]]; simpl; [by tidy_trace|].
        destruct (NewMapping _); run_step; by tidy_trace.
      * done.
  - run_step. destruct (Open _) as [c2 [e|]]; simpl; [by tidy_trace|].
    destruct (NewMapping _); run_step; by tidy_trace.
Qed.


(** *** Which calls each part makes *)

Lemma forallb_flat_map {A} (q : Event -> bool) (f : A -> list Event) xs :
  (forall x, forallb q (f x) = true) -> forallb q (flat_map f xs) = true.
Proof.
  intros Hf. induction xs as [|x xs IH]; simpl; [done|].
  by rewrite forallb_app, Hf, IH.
Qed.

Lemma forallb_passCalls {A} (q : Event -> bool) step
  (callsOf : OSMCache -> A -> list Event) c xs :
  (forall c x, forallb q (callsOf c x) = true) ->
  forallb q (passCalls step callsOf c xs) = true.
Proof.
  intros Hf. revert c. induction xs as [|x xs IH]; intros c; simpl; [done|].
  by rewrite forallb_app, Hf, IH.
Qed.

Lemma wayCalls_assembler diff c w :
  forallb assemblerCall (wayCalls diff c w) = true.
Proof.
  unfold wayCalls, lineStringCalls, polygonCalls. calls_tac.
Qed.

Lemma relationCalls_assembler c r :
  forallb assemblerCall (relationCalls c r) = true.
Proof.
  unfold relationCalls, assembleCalls, markCalls.
  assert (Hfill : forall ms,
    forallb assemblerCall (flat_map (fillCalls (cache.Coords c)) ms) = true).
  { intros ms. apply forallb_flat_map. intros m. unfold fillCalls.
    calls_tac. }
  destruct (handed c r); calls_tac; rewrite ?Hfill; calls_tac.
Qed.

Lemma nodeCalls_assembler n : forallb assemblerCall (nodeCalls n) = true.
Proof. unfold nodeCalls. calls_tac. Qed.

Lemma assemblyCalls_assembler fl c :
  forallb assemblerCall
    (relationPassCalls c ++ wayPassCalls (diff fl) (relationsDone c)
     ++ nodePassCalls (relationsDone c)) = true.
Proof.
  unfold relationPassCalls, wayPassCalls, nodePassCalls.
  rewrite !forallb_app. simpl.
  rewrite forallb_passCalls by apply relationCalls_assembler.
  rewrite !forallb_flat_map;
    auto using wayCalls_assembler, nodeCalls_assembler.
Qed.

End Runs.

(** ** The way assembler *)

Section WayAssembler.

Context {C : Collaborators}.

(** C9: when the line-string builder fails for a way that matched a
    line-string rule, the body ends there: the calls are the marker test,
    the coord fill, the builder call and, unless the error is silent, the
    log line; no polygon is attempted and nothing is recorded in the diff
    coord store, whatever the way and the diff flag are. *)
Theorem C9_line_string_failure_ends_body
  (diff : bool) (p : loc) (s : State) (w0 : Way) (e : error) :
  let id := Id (wElem w0) in
  let cc := cache.Coords (osmCache s) in
  let w2 := project (wSetNodes w0 (fst (FillWay cc (Refs w0)))) in
  heap s !! p = Some w0 ->
  IsInserted (cache.InsertedWays (osmCache s)) id = (false, None) ->
  snd (FillWay cc (Refs w0)) = None ->
  some (LineStringMatcher (wElem w2)) = true ->
  snd (LineStringWKB (Nodes w2)) = Some e ->
  fst (wayBody diff p s) = Continue
  /\ calls (wayBody diff p) s
     = [ProgressAdd CtWays 1; InsertedIsInserted id; CoordsFillWay id;
        GeomLineStringWKB (Nodes w2)] ++ logged e
  /\ existsb isPolygonBuild (calls (wayBody diff p) s) = false
  /\ existsb isDiffAdd (calls (wayBody diff p) s) = false.
Proof.
  intros id cc w2 Hp Hins Hfill Hm Hls.
  assert (Hrun : exists h,
    wayBody diff p s
    = (Continue,
       mkState (osmCache s) h
         (trace s ++ [ProgressAdd CtWays 1; InsertedIsInserted id;
                      CoordsFillWay id; GeomLineStringWKB (Nodes w2)]
                  ++ logged e))).
  { unfold wayBody. unfold bind at 1.
    rewrite (wayPrepare_run _ _ _ Hp). cbv zeta.
    fold id cc. rewrite Hins, Hfill. fold w2.
    unfold bind at 1.
    erewrite wayLineStrings_run by (simpl; apply lookup_insert_eq).
    cbv zeta. rewrite Hm, Hls. simpl. eexists. by tidy_trace. }
  destruct Hrun as [h Hrun].
  assert (Hcalls : calls (wayBody diff p) s
    = [ProgressAdd CtWays 1; InsertedIsInserted id; CoordsFillWay id;
       GeomLineStringWKB (Nodes w2)] ++ logged e).
  { apply calls_spec. by rewrite Hrun. }
  rewrite Hcalls, Hrun. repeat split; simpl.
  - by apply existsb_logged.
  - by apply existsb_logged.
Qed.

(** C4, as amended: for a way that is not marked as inserted, whose
    coords resolve, that is closed, whose tags match a line-string rule
    and a polygon rule and for which both builders succeed, the body
    emits the rows of both branches.  Each branch works on its own copy
    of the record ([way1], [way2], both different from [p]): the copy of
    the line-string branch ends with the line-string geometry, the copy
    of the polygon branch with the polygon geometry, the record behind
    [p] is the projected way with the geometry it had, and no other
    record is touched; both builders are given the same projected
    nodes. *)
Theorem C4_two_copies_two_geometries
  (diff : bool) (p : loc) (s : State) (w0 : Way) :
  let id := Id (wElem w0) in
  let w2 := projected (osmCache s) w0 in
  let g1 := fst (LineStringWKB (Nodes w2)) in
  let g2 := fst (PolygonWKB (Nodes w2)) in
  heap s !! p = Some w0 ->
  unmarked (osmCache s) w0 = true ->
  resolves (osmCache s) w0 = true ->
  IsClosed w0 = true ->
  some (LineStringMatcher (wElem w2)) = true ->
  some (PolygonMatcher (wElem w2)) = true ->
  snd (LineStringWKB (Nodes w2)) = None ->
  snd (PolygonWKB (Nodes w2)) = None ->
  exists (way1 way2 : loc) (h : gmap loc Way),
    wayBody diff p s
    = (Val tt,
       mkState (osmCache s) h
         (trace s
          ++ [ProgressAdd CtWays 1; InsertedIsInserted id; CoordsFillWay id;
              GeomLineStringWKB (Nodes w2)]
          ++ rowsOf (LineStringMatcher (wElem w2)) (setGeom (wElem w2) g1)
          ++ [GeomPolygonWKB (Nodes w2)]
          ++ rowsOf (PolygonMatcher (wElem w2)) (setGeom (wElem w2) g2)
          ++ (if diff then [DiffAddFromWay w2] else [])))
    /\ way1 <> p /\ way2 <> p /\ way1 <> way2
    /\ h !! p = Some w2
    /\ Geom (wElem w2) = Geom (wElem w0)
    /\ h !! way1 = Some (wSetGeom w2 g1)
    /\ h !! way2 = Some (wSetGeom w2 g2)
    /\ (forall q, q <> p -> q <> way1 -> q <> way2 -> h !! q = heap s !! q).
Proof.
  intros id w2 g1 g2 Hp Hins Hfill Hclosed Hml Hmp Hls Hpg.
  set (h0 := <[p := w2]> (heap s)).
  set (way1 := fresh (dom h0)).
  set (h1 := <[way1 := wSetGeom w2 g1]> h0).
  set (way2 := fresh (dom h1)).
  set (h2 := <[way2 := wSetGeom w2 g2]> h1).
  assert (Hp0 : h0 !! p = Some w2) by apply lookup_insert_eq.
  assert (Hne1 : way1 <> p) by (eapply fresh_heap_ne; exact Hp0).
  assert (Hp1 : h1 !! p = Some w2).
  { unfold h1. rewrite lookup_insert_ne; done. }
  assert (Hne2 : way2 <> p) by (eapply fresh_heap_ne; exact Hp1).
  assert (H11 : h1 !! way1 = Some (wSetGeom w2 g1)) by apply lookup_insert_eq.
  assert (Hne12 : way1 <> way2).
  { intros Heq. symmetry in Heq. revert Heq. eapply fresh_heap_ne. exact H11. }
  unfold unmarked in Hins. unfold resolves in Hfill.
  apply bool_decide_eq_true in Hfill.
  destruct (IsInserted _ _) as [[|] [e|]] eqn:Hins'; try done.
  exists way1, way2, h2.
  split; [|repeat split; try done].
  - unfold wayBody. unfold bind at 1.
    rewrite (wayPrepare_run _ _ _ Hp). cbv zeta.
    rewrite Hins', Hfill. fold id.
    fold (projected (osmCache s) w0). fold w2 h0.
    unfold bind at 1.
    rewrite (wayLineStrings_run _ _ w2) by exact Hp0.
    cbv zeta. rewrite Hml. cbn [heap]. fold g1. rewrite Hls.
    fold way1 h1. unfold bind at 1.
    rewrite (wayPolygons_run _ _ w2) by exact Hp1.
    cbv zeta. cbn [heap].
    replace (IsClosed w2) with true by (symmetry; exact Hclosed).
    rewrite Hmp. cbn [andb]. fold g2. rewrite Hpg.
    fold way2 h2.
    rewrite (wayDiff_run _ _ _ w2).
    + cbn [osmCache heap trace]. f_equal. f_equal. by tidy_trace.
    + cbn [heap]. unfold h2. rewrite lookup_insert_ne; done.
  - unfold h2. rewrite lookup_insert_ne; done.
  - unfold h2. rewrite lookup_insert_ne; done.
  - unfold h2. apply lookup_insert_eq.
  - intros q Hq Hq1 Hq2. unfold h2, h1, h0.
    rewrite !lookup_insert_ne; done.
Qed.

End WayAssembler.

(** ** The coord store between the phases *)

Section CoordStore.

Context {C : Collaborators}.





Lemma forallb_weaken (q q' : Event -> bool) evs :
  (forall e, q e = true -> q' e = true) ->
  forallb q evs = true -> forallb q' evs = true.
Proof.
  intros Hq. induction evs as [|e evs IH]; simpl; [done|].
  intros [He Hevs]%andb_true_iff. by rewrite (Hq _ He), IH.
Qed.






End CoordStore.

(** ** [init] and the read phase *)

Section ReadPhase.

Context {C : Collaborators}.

Lemma nonempty_true (str : string) : str <> "" -> nonempty str = true.
Proof. by destruct str. Qed.

Lemma existsb_passCalls {A} (q : Event -> bool) step
  (callsOf : OSMCache -> A -> list Event) c xs :
  (forall c x, existsb q (callsOf c x) = false) ->
  existsb q (passCalls step callsOf c xs) = false.
Proof.
  intros Hf. revert c. induction xs as [|x xs IH]; intros c; simpl; [done|].
  by rewrite existsb_app, Hf, IH.
Qed.

Lemma fold_batchCache_keeps {X} (proj : OSMCache -> X) g sched c :
  (forall c b, proj (batchCache g c b) = proj c) ->
  proj (fold_left (batchCache g) sched c) = proj c.
Proof.
  intros Hkeep. revert c. induction sched as [|b sched IH]; intros c; simpl.
  - done.
  - by rewrite IH, Hkeep.
Qed.

(** C7: a nonempty GOPOSM_SKIP_COORDS, GOPOSM_SKIP_NODES or
    GOPOSM_SKIP_WAYS makes the writers of that kind take every batch off
    their channel without a Put: [parse] returns, makes no Put call of
    that kind and leaves the store of that kind as it found it; with
    skip-coords the coord store after the read phase is the one before
    it with the mode switched and flushed, so an empty one stays empty. *)
Theorem C7_skip_disables_cache_writer
  (env : Environ) (sched : list Batch) (s : State) :
  let g := init env in
  let c := osmCache s in
  fst (parse g sched s) = Val tt
  /\ (env "GOPOSM_SKIP_COORDS" <> "" ->
      existsb isCoordsPut (calls (parse g sched) s) = false
      /\ cache.Coords (osmCache (snd (parse g sched s))) = cache.Coords c
      /\ cache.Coords (osmCache (snd (readPhase g sched s)))
         = Flush (SetLinearImport
                    (SetLinearImport (cache.Coords c) true) false))
  /\ (env "GOPOSM_SKIP_NODES" <> "" ->
      existsb isNodesPut (calls (parse g sched) s) = false
      /\ cache.Nodes (osmCache (snd (parse g sched s))) = cache.Nodes c)
  /\ (env "GOPOSM_SKIP_WAYS" <> "" ->
      existsb isWaysPut (calls (parse g sched) s) = false
      /\ cache.Ways (osmCache (snd (parse g sched s))) = cache.Ways c).
Proof.
  intros g c.
  destruct (parse_run g sched s) as (h & Hrun).
  rewrite (calls_spec (parse g sched) s _
             (f_equal (fun r => trace (snd r)) Hrun)).
  rewrite Hrun. cbn [fst snd osmCache].
  split; [done|]. split; [|split]; intros Hskip%nonempty_true.
  - assert (Hg : skipCoords g = true) by done.
    split; [|split].
    + apply existsb_passCalls. intros c' b.
      destruct b; simpl; rewrite ?Hg; repeat case_match; done.
    + apply (fold_batchCache_keeps cache.Coords). intros c' b.
      destruct b; simpl; rewrite ?Hg; repeat case_match; done.
    + destruct (readPhase_run g sched s) as (h' & ->).
      cbn [snd osmCache]. unfold readCache. simpl.
      rewrite (fold_batchCache_keeps cache.Coords); [done|].
      intros c' b. destruct b; simpl; rewrite ?Hg; repeat case_match; done.
  - assert (Hg : skipNodes g = true) by done.
    split.
    + apply existsb_passCalls. intros c' b.
      destruct b; simpl; rewrite ?Hg; repeat case_match; done.
    + apply (fold_batchCache_keeps cache.Nodes). intros c' b.
      destruct b; simpl; rewrite ?Hg; repeat case_match; done.
  - assert (Hg : skipWays g = true) by done.
    split.
    + apply existsb_passCalls. intros c' b.
      destruct b; simpl; rewrite ?Hg; repeat case_match; done.
    + apply (fold_batchCache_keeps cache.Ways). intros c' b.
      destruct b; simpl; rewrite ?Hg; repeat case_match; done.
Qed.


End ReadPhase.

(** ** The write phase *)

Section WritePhase.

Context {C : Collaborators}.

Lemma wayBody_calls diff p s w0 :
  heap s !! p = Some w0 ->
  calls (wayBody diff p) s = wayCalls diff (osmCache s) w0.
Proof.
  intros Hp. destruct (wayBody_run diff p s w0 Hp) as (o & h & Hrun & _).
  apply calls_spec. by rewrite Hrun.
Qed.

Lemma existsb_flat_map {A} (q : Event -> bool) (f : A -> list Event) xs :
  (forall x, existsb q (f x) = false) -> existsb q (flat_map f xs) = false.
Proof.
  intros Hf. induction xs as [|x xs IH]; simpl; [done|].
  by rewrite existsb_app, Hf, IH.
Qed.





End WritePhase.

(** ** The relation assembler and the closed-way test *)

Section Assemblers.

Context {C : Collaborators}.

Lemma elem_of_logged x e : x ∈ logged e -> x = LogPrintln e.
Proof.
  unfold logged. destruct (silent e); [by intros ?%elem_of_nil|].
  by intros ->%list_elem_of_singleton.
Qed.

Lemma polygonCalls_open w : IsClosed w = false -> polygonCalls w = [].
Proof. intros H. unfold polygonCalls. by rewrite H. Qed.

Lemma lineStringCalls_inserts w x :
  x ∈ lineStringCalls w -> isInsert x = true ->
  x ∈ rowsOf (LineStringMatcher (wElem w))
        (setGeom (wElem w) (fst (LineStringWKB (Nodes w)))).
Proof.
  unfold lineStringCalls. destruct (some _); [|by intros ?%elem_of_nil].
  intros [->|Hx]%elem_of_cons; [done|].
  destruct (snd (LineStringWKB _)); [|done].
  apply elem_of_logged in Hx as ->. done.
Qed.

(** C5, as amended: the polygon branch builds a geometry and emits rows
    only for a closed way, where closed means at least four node ids with
    the first equal to the last.  For a way that is not closed the
    polygon branch does nothing, the body calls no polygon builder and
    every row it inserts is a row of the line-string branch; in
    particular a way with three node ids is not closed, whether or not
    the first equals the last. *)
Theorem C5_polygon_only_when_closed
  (diff : bool) (p : loc) (s : State) (w0 : Way) :
  let w2 := projected (osmCache s) w0 in
  (IsClosed w0 = true <->
     (4 <= length (Refs w0))%nat
     /\ exists a, head (Refs w0) = Some a /\ last (Refs w0) = Some a)
  /\ (length (Refs w0) = 3%nat -> IsClosed w0 = false)
  /\ (heap s !! p = Some w0 -> IsClosed w0 = false ->
      wayPolygons p s = (Val tt, s))
  /\ (heap s !! p = Some w0 -> IsClosed w0 = false ->
      existsb isPolygonBuild (calls (wayBody diff p) s) = false
      /\ forall x, x ∈ calls (wayBody diff p) s -> isInsert x = true ->
           x ∈ rowsOf (LineStringMatcher (wElem w2))
                 (setGeom (wElem w2) (fst (LineStringWKB (Nodes w2))))).
Proof.
  intros w2. split; [|split; [|split]].
  - unfold IsClosed. rewrite andb_true_iff, Z.leb_le. split.
    + intros [Hlen Heq]. split; [lia|].
      destruct (head (Refs w0)) as [a|]; [|done].
      destruct (last (Refs w0)) as [b|]; [|done].
      apply Z.eqb_eq in Heq. subst. eauto.
    + intros [Hlen (a & -> & ->)]. split; [lia | apply Z.eqb_refl].
  - intros Hlen. unfold IsClosed. by rewrite Hlen.
  - intros Hp Hc. rewrite (wayPolygons_run _ _ _ Hp). cbv zeta.
    by rewrite Hc.
  - intros Hp Hc. rewrite (wayBody_calls _ _ _ _ Hp).
    unfold wayCalls. fold (projected (osmCache s) w0). fold w2.
    assert (Hc2 : IsClosed w2 = false) by exact Hc.
    rewrite (polygonCalls_open _ Hc2).
    assert (Hpb : existsb isPolygonBuild (lineStringCalls w2) = false).
    { unfold lineStringCalls. no_calls_tac. }
    split.
    + destruct (IsInserted _ _) as [[|] [e|]]; simpl; try done.
      destruct (snd (FillWay _ _)); simpl; [done|].
      rewrite existsb_app, Hpb. simpl. repeat case_match; done.
    + intros x Hx Hins.
      apply elem_of_app in Hx as [Hx|Hx].
      { apply elem_of_cons in Hx as [->|Hx]; [done|].
        apply list_elem_of_singleton in Hx as ->. done. }
      destruct (IsInserted _ _) as [[|] [e|]];
        try (apply list_elem_of_singleton in Hx as ->; done);
        try (by apply elem_of_nil in Hx).
      apply elem_of_cons in Hx as [->|Hx]; [done|].
      destruct (snd (FillWay _ _)); [by apply elem_of_nil in Hx|].
      apply elem_of_app in Hx as [Hx|Hx];
        [by apply lineStringCalls_inserts|].
      exfalso. repeat case_match; simpl in Hx;
        try (by apply elem_of_nil in Hx);
        apply list_elem_of_singleton in Hx as ->; done.
Qed.

Lemma relationCache_stores c r :
  cache.Coords (relationCache c r) = cache.Coords c
  /\ cache.Ways (relationCache c r) = cache.Ways c
  /\ cache.Relations (relationCache c r) = cache.Relations c.
Proof. unfold relationCache. by destruct (marking c r). Qed.

Lemma marking_stores c c' r :
  cache.Coords c' = cache.Coords c -> cache.Ways c' = cache.Ways c ->
  marking c' r = marking c r.
Proof.
  intros Hc Hw. unfold marking, assembled, handed. by rewrite Hc, Hw.
Qed.

Lemma relationsDone_marked rels c id :
  (forall iw ms x,
     marked (fst (PutMembers iw ms)) x <-> marked iw x \/ x ∈ wayIds ms) ->
  marked (cache.InsertedWays (fold_left relationCache rels c)) id
  <-> marked (cache.InsertedWays c) id
      \/ exists r r2,
           r ∈ rels /\ marking c r = Some r2 /\ id ∈ wayIds (Members r2).
Proof.
  intros Hput. revert c. induction rels as [|r rels IH]; intros c; simpl.
  - split; [auto|]. intros [H|(r & r2 & Hr & _)]; [done|].
    by apply elem_of_nil in Hr.
  - rewrite IH. destruct (relationCache_stores c r) as (Hc & Hw & _).
    split.
    + intros [Hm|(r' & r2 & Hr' & Hmk & Hid)].
      * unfold relationCache in Hm.
        destruct (marking c r) as [r2|] eqn:Hmk; [|by left].
        simpl in Hm. apply Hput in Hm as [Hm|Hm]; [by left|].
        right. exists r, r2. split; [apply elem_of_cons; by left|done].
      * right. exists r', r2. split; [apply elem_of_cons; by right|].
        by rewrite <- (marking_stores c _ r' Hc Hw).
    + intros [Hm|(r' & r2 & Hr' & Hmk & Hid)].
      * left. unfold relationCache. destruct (marking c r); [|done].
        simpl. apply Hput. by left.
      * apply elem_of_cons in Hr' as [->|Hr'].
        -- left. unfold relationCache. rewrite Hmk. simpl.
           apply Hput. by right.
        -- right. exists r', r2. split; [done|].
           by rewrite (marking_stores c _ r' Hc Hw).
Qed.

(** C1, as amended: let the inserted-ways store be a set (after
    put_members the marked ids are the ones marked before and the ids of
    the way-typed members put).  After the relation assembler the marked
    ids are the ones marked before it and the ids of the way-typed
    members of the relations it marked: those for which FillMembers
    returned nil or NotFound, the geometry builder returned nil and whose
    tags, as the builder left them, matched a polygon rule.  The way
    assembler skips every way whose id is marked: the body ends after the
    marker test and inserts no row. *)
Theorem C1_marker_after_relation_assembler
  (s : State) (id : Z) (diff : bool) (p : loc) (s1 : State) (w : Way) :
  let c := osmCache s in
  (forall iw ms x,
     marked (fst (PutMembers iw ms)) x <-> marked iw x \/ x ∈ wayIds ms) ->
  (marked (cache.InsertedWays (osmCache (snd (relationPass s)))) id
   <-> marked (cache.InsertedWays c) id
       \/ exists r r2,
            r ∈ RelationsIter (cache.Relations c)
            /\ marking c r = Some r2 /\ id ∈ wayIds (Members r2))
  /\ (heap s1 !! p = Some w ->
      marked (cache.InsertedWays (osmCache s1)) (Id (wElem w)) ->
      fst (wayBody diff p s1) = Continue
      /\ existsb isInsert (calls (wayBody diff p) s1) = false
      /\ calls (wayBody diff p) s1
         = [ProgressAdd CtWays 1; InsertedIsInserted (Id (wElem w))]
           ++ match snd (IsInserted (cache.InsertedWays (osmCache s1))
                           (Id (wElem w))) with
              | Some e => [LogPrintln e]
              | None => []
              end).
Proof.
  intros c Hput. split.
  - destruct (relationPass_run s) as (h & ->). cbn [snd osmCache].
    by apply relationsDone_marked.
  - intros Hp Hm. unfold marked in Hm.
    rewrite (wayBody_calls _ _ _ _ Hp). unfold wayCalls.
    unfold wayBody. unfold bind at 1.
    rewrite (wayPrepare_run _ _ _ Hp). cbv zeta.
    destruct (IsInserted _ _) as [b [e|]]; simpl in Hm; subst; simpl; done.
Qed.



End Assemblers.

(** ** The driver on the examples *)

Import Model Examples.

Lemma model_put_members (iw : gset Z) (ms : list Member) (x : Z) :
  marked (C := model) (fst (putMembers iw ms)) x
  <-> marked (C := model) iw x \/ x ∈ wayIds ms.
Proof.
  unfold marked, wayIds. simpl.
  rewrite !bool_decide_eq_true, elem_of_union, elem_of_list_to_set. done.
Qed.

Lemma C9_witness :
  fst (wayBody true 0%nat (at0 cache3 stub)) = Continue
  /\ existsb isPolygonBuild
       (calls (wayBody true 0%nat) (at0 cache3 stub)) = false
  /\ existsb isDiffAdd (calls (wayBody true 0%nat) (at0 cache3 stub)) = false.
Proof.
  destruct (C9_line_string_failure_ends_body true 0%nat (at0 cache3 stub)
              stub (ErrLevel "line string needs two points" 0))
    as (H1 & _ & H3 & H4); try (vm_compute; reflexivity).
  auto.
Defined.

Lemma C4_witness :
  inserts (trace (snd (wayBody true 0%nat (at0 cache3 triangle))))
  = [("roads", (200, Some {| Wkb := [Byte.x02] |}));
     ("buildings", (200, Some {| Wkb := [Byte.x03] |}))]
  /\ exists way1 way2,
       let h := heap (snd (wayBody true 0%nat (at0 cache3 triangle))) in
       (Geom ∘ wElem) <$> h !! 0%nat = Some None
       /\ (Geom ∘ wElem) <$> h !! way1 = Some (Some {| Wkb := [Byte.x02] |})
       /\ (Geom ∘ wElem) <$> h !! way2 = Some (Some {| Wkb := [Byte.x03] |}).
Proof.
  destruct (C4_two_copies_two_geometries true 0%nat (at0 cache3 triangle)
              triangle)
    as (way1 & way2 & h & Hrun & _ & _ & _ & Hp & _ & Hw1 & Hw2 & _).
  1-8: vm_compute; reflexivity.
  rewrite Hrun. split; [vm_compute; reflexivity|].
  exists way1, way2. cbv zeta. cbn [snd heap]. unfold loc in *.
  rewrite Hp, Hw1, Hw2.
  repeat split; vm_compute; reflexivity.
Defined.

(** C4 as stated fails.  [spike] is closed, its coords resolve and it
    matches a line-string rule and a polygon rule, but the polygon
    builder fails and the only row is the line-string row.  [triangle]
    is closed, its coords resolve and it matches both rules too, but once
    a relation has marked it as inserted the body emits no row at all. *)
Lemma C4_counterexample :
  (IsClosed spike = true
   /\ snd (FillWay (cache.Coords cache3) (Refs spike)) = None
   /\ LineStringMatcher (wElem (projected cache3 spike)) = ["roads"]
   /\ PolygonMatcher (wElem (projected cache3 spike)) = ["buildings"]
   /\ inserts (calls (wayBody true 0%nat) (at0 cache3 spike))
      = [("roads", (300, Some {| Wkb := [Byte.x02] |}))]
   /\ logs (calls (wayBody true 0%nat) (at0 cache3 spike))
      = [ErrLevel "ring needs three distinct points" 1])
  /\ (IsClosed triangle = true
      /\ snd (FillWay (cache.Coords cacheM) (Refs triangle)) = None
      /\ LineStringMatcher (wElem (projected cacheM triangle)) = ["roads"]
      /\ PolygonMatcher (wElem (projected cacheM triangle)) = ["buildings"]
      /\ IsInserted (cache.InsertedWays cacheM) (Id (wElem triangle))
         = (true, None)
      /\ inserts (calls (wayBody true 0%nat) (at0 cacheM triangle)) = []).
Proof. repeat split; vm_compute; reflexivity. Qed.

Lemma C5_witness :
  IsClosed flat = false
  /\ fst (wayPolygons 0%nat (at0 cache3 flat)) = Val tt
  /\ existsb isPolygonBuild
       (calls (wayBody true 0%nat) (at0 cache3 flat)) = false.
Proof.
  destruct (C5_polygon_only_when_closed true 0%nat (at0 cache3 flat) flat)
    as (_ & H2 & H3 & H4).
  split; [apply H2; reflexivity|].
  split; [rewrite H3; [reflexivity| |]; vm_compute; reflexivity|].
  apply H4; vm_compute; reflexivity.
Defined.

(** C5 as stated fails: [triangle] has exactly three distinct nodes and
    its first id equals its last, and it is closed: the polygon builder
    is called and a polygon row is inserted. *)
Lemma C5_counterexample :
  size (list_to_set (Refs triangle) : gset Z) = 3%nat
  /\ head (Refs triangle) = last (Refs triangle)
  /\ IsClosed triangle = true
  /\ existsb isPolygonBuild
       (calls (wayBody true 0%nat) (at0 cache3 triangle)) = true
  /\ inserts (calls (wayBody true 0%nat) (at0 cache3 triangle))
     = [("roads", (200, Some {| Wkb := [Byte.x02] |}));
        ("buildings", (200, Some {| Wkb := [Byte.x03] |}))].
Proof. repeat split; vm_compute; reflexivity. Qed.

Lemma C1_witness :
  (marked (cache.InsertedWays (osmCache (snd (relationPass (start cacheR)))))
     200
   <-> marked (cache.InsertedWays cacheR) 200
       \/ exists r r2,
            r ∈ RelationsIter (cache.Relations cacheR)
            /\ marking cacheR r = Some r2 /\ 200 ∈ wayIds (Members r2))
  /\ fst (wayBody true 0%nat (at0 cacheM triangle)) = Continue
  /\ existsb isInsert (calls (wayBody true 0%nat) (at0 cacheM triangle))
     = false.
Proof.
  destruct (C1_marker_after_relation_assembler (start cacheR) 200 true 0%nat
              (at0 cacheM triangle) triangle model_put_members)
    as [H1 H2].
  split; [exact H1|].
  destruct H2 as (H2 & H3 & _); try (vm_compute; reflexivity).
  auto.
Defined.

(** C1 as stated fails: [grove] is among the relations, its tags match a
    polygon rule and way 50 is one of its way-typed members, but the
    geometry builder fails for it and way 50 is not marked. *)
Lemma C1_counterexample :
  In grove (RelationsIter (cache.Relations cacheR))
  /\ PolygonMatcher (rElem grove) = ["landusages"]
  /\ wayIds (Members grove) = [50]
  /\ IsInserted
       (cache.InsertedWays (osmCache (snd (relationPass (start cacheR))))) 50
     = (false, None)
  /\ IsInserted
       (cache.InsertedWays (osmCache (snd (relationPass (start cacheR))))) 200
     = (true, None).
Proof.
  split; [right; left; reflexivity|].
  repeat split; vm_compute; reflexivity.
Qed.





Lemma C7_witness :
  let g := init (fun _ => "1") in
  existsb isCoordsPut (calls (parse g batches) (start emptyCache)) = false
  /\ cache.Coords (osmCache (snd (parse g batches (start emptyCache))))
     = noCoords
  /\ existsb isNodesPut (calls (parse g batches) (start emptyCache)) = false
  /\ cache.Nodes (osmCache (snd (parse g batches (start emptyCache)))) = []
  /\ existsb isWaysPut (calls (parse g batches) (start emptyCache)) = false
  /\ cache.Ways (osmCache (snd (parse g batches (start emptyCache)))) = [].
Proof.
  destruct (C7_skip_disables_cache_writer (fun _ => "1") batches
              (start emptyCache)) as (_ & Hc & Hn & Hw).
  destruct Hc as (H1 & H2 & _); [vm_compute; discriminate|].
  destruct Hn as (H3 & H4); [vm_compute; discriminate|].
  destruct Hw as (H5 & H6); [vm_compute; discriminate|].
  repeat split; assumption.
Defined.




(** ** More on [init]: the batch size read from the environment *)

Lemma digit_range c d : strconv.digit c = Some d -> 0 <= d <= 9.
Proof.
  unfold strconv.digit.
  destruct (_ && _) eqn:H; [|done]. intros [= <-].
  apply andb_true_iff in H as [H1%Z.leb_le H2%Z.leb_le]. lia.
Qed.

Lemma parseDigits_range s acc :
  0 <= acc <= 4294967295 ->
  0 <= fst (strconv.parseDigits acc s) <= 4294967295.
Proof.
  revert acc. induction s as [|c s IH]; intros acc Hacc; simpl; [done|].
  destruct (strconv.digit c) as [d|] eqn:Hd; simpl; [|lia].
  apply digit_range in Hd.
  destruct (Z.ltb_spec 4294967295 (acc * 10 + d)); simpl; [lia|].
  apply IH. lia.
Qed.

Lemma ParseInt32_range str :
  -2147483648 <= fst (strconv.ParseInt32 str) <= 2147483647.
Proof.
  unfold strconv.ParseInt32.
  destruct (list_ascii_of_string str) as [|c rest]; simpl; [lia|].
  set (s := if _ : bool then rest else c :: rest).
  assert (Hr : 0 <= fst (strconv.ParseUint32 s) <= 4294967295).
  { unfold strconv.ParseUint32. destruct s as [|a s']; [simpl; lia|].
    apply (parseDigits_range (a :: s')). lia. }
  destruct (strconv.ParseUint32 s) as [un e]. simpl in Hr.
  destruct (Ascii.eqb c "-"); simpl;
    destruct e as [[]|]; simpl; try lia;
    repeat (case_match; simpl); lia.
Qed.

(** X1: whatever the environment holds, the batch size [init] leaves in
    dbImportBatchSize is never 0 and fits 32 bits (a value out of range
    is clamped by ParseInt, whose error is dropped); it may be
    negative. *)
Theorem X1_batch_size_nonzero_int32 (env : Environ) :
  dbImportBatchSize (init env) <> 0
  /\ -2147483648 <= dbImportBatchSize (init env) <= 2147483647.
Proof.
  unfold init. cbn [dbImportBatchSize].
  pose proof (ParseInt32_range (env "GOPOSM_DBIMPORT_BATCHSIZE")) as H.
  destruct (Z.eqb_spec
              (fst (strconv.ParseInt32 (env "GOPOSM_DBIMPORT_BATCHSIZE"))) 0);
    lia.
Qed.

Lemma digit_digitChar d : 0 <= d <= 9 -> strconv.digit (digitChar d) = Some d.
Proof.
  intros H.
  assert (Hd : d = 0 \/ d = 1 \/ d = 2 \/ d = 3 \/ d = 4 \/ d = 5 \/ d = 6
               \/ d = 7 \/ d = 8 \/ d = 9) by lia.
  repeat (destruct Hd as [->|Hd]; [reflexivity|]). by subst.
Qed.

Lemma digitChar_not_sign d :
  0 <= d <= 9 ->
  Ascii.eqb (digitChar d) "+" = false /\ Ascii.eqb (digitChar d) "-" = false.
Proof.
  intros H.
  assert (Hd : d = 0 \/ d = 1 \/ d = 2 \/ d = 3 \/ d = 4 \/ d = 5 \/ d = 6
               \/ d = 7 \/ d = 8 \/ d = 9) by lia.
  repeat (destruct Hd as [->|Hd]; [split; reflexivity|]). by subst.
Qed.

Lemma value_grows ds acc :
  0 <= acc -> Forall (fun d => 0 <= d <= 9) ds ->
  acc <= fold_left (fun a d => a * 10 + d) ds acc.
Proof.
  intros Hacc Hds. revert acc Hacc.
  induction Hds as [|d ds Hd _ IH]; intros acc Hacc; simpl; [lia|].
  etrans; [|apply IH; lia]. lia.
Qed.

Lemma parseDigits_numeral ds acc :
  0 <= acc -> Forall (fun d => 0 <= d <= 9) ds ->
  fold_left (fun a d => a * 10 + d) ds acc <= 4294967295 ->
  strconv.parseDigits acc (map digitChar ds)
  = (fold_left (fun a d => a * 10 + d) ds acc, None).
Proof.
  intros Hacc Hds. revert acc Hacc.
  induction Hds as [|d ds Hd Hds IH]; intros acc Hacc Hv; simpl; [done|].
  rewrite (digit_digitChar _ Hd). simpl in Hv.
  pose proof (value_grows ds (acc * 10 + d) ltac:(lia) Hds).
  destruct (Z.ltb_spec 4294967295 (acc * 10 + d)); [lia|].
  apply IH; [lia|done].
Qed.

Lemma ParseUint32_numeral ds :
  isDigits ds -> valueOf ds <= 4294967295 ->
  strconv.ParseUint32 (map digitChar ds) = (valueOf ds, None).
Proof.
  intros [Hne Hds] Hv. unfold strconv.ParseUint32.
  destruct ds as [|d ds]; [done|].
  change (map digitChar (d :: ds)) with (digitChar d :: map digitChar ds).
  cbv iota.
  change (digitChar d :: map digitChar ds) with (map digitChar (d :: ds)).
  by apply parseDigits_numeral.
Qed.

Lemma ParseInt32_numeral ds :
  isDigits ds ->
  (valueOf ds <= 2147483647 ->
   strconv.ParseInt32 (numeral ds) = (valueOf ds, None))
  /\ (valueOf ds <= 2147483647 ->
      strconv.ParseInt32 (String "+" (numeral ds)) = (valueOf ds, None))
  /\ (valueOf ds <= 2147483648 ->
      strconv.ParseInt32 (String "-" (numeral ds)) = (- valueOf ds, None)).
Proof.
  intros Hds.
  assert (Hfirst : exists d rest, ds = d :: rest /\ 0 <= d <= 9).
  { destruct Hds as [Hne Hall]. destruct ds as [|d rest]; [done|].
    inversion Hall; subst. eauto. }
  destruct Hfirst as (d & rest & Heq & Hd).
  destruct (digitChar_not_sign d Hd) as [Hplus Hminus].
  split; [|split]; intros Hv; unfold strconv.ParseInt32, numeral.
  - rewrite list_ascii_of_string_of_list_ascii.
    rewrite Heq. cbn [map]. rewrite Hplus, Hminus. cbn [orb].
    change (digitChar d :: map digitChar rest) with (map digitChar (d :: rest)).
    rewrite <- Heq, (ParseUint32_numeral ds Hds) by lia.
    cbn [negb andb].
    destruct (Z.leb_spec 2147483648 (valueOf ds)); [lia|done].
  - cbn [list_ascii_of_string]. rewrite list_ascii_of_string_of_list_ascii.
    cbn [Ascii.eqb Bool.eqb orb andb negb].
    rewrite (ParseUint32_numeral ds Hds) by lia.
    destruct (Z.leb_spec 2147483648 (valueOf ds)); [lia|done].
  - cbn [list_ascii_of_string]. rewrite list_ascii_of_string_of_list_ascii.
    cbn [Ascii.eqb Bool.eqb orb andb negb].
    rewrite (ParseUint32_numeral ds Hds) by lia.
    destruct (Z.ltb_spec 2147483648 (valueOf ds)); [lia|done].
Qed.

(** X2: a decimal numeral in GOPOSM_DBIMPORT_BATCHSIZE is taken at its
    value: digits alone or after a plus sign give the value when it is
    positive and below 2^31, digits after a minus sign give the negated
    value when it is at most 2^31 (so a negative batch size is accepted
    as it is). *)
Theorem X2_batch_size_numeral (env : Environ) (ds : list Z) :
  isDigits ds ->
  0 < valueOf ds ->
  (env "GOPOSM_DBIMPORT_BATCHSIZE" = numeral ds ->
   valueOf ds <= 2147483647 ->
   dbImportBatchSize (init env) = valueOf ds)
  /\ (env "GOPOSM_DBIMPORT_BATCHSIZE" = String "+" (numeral ds) ->
      valueOf ds <= 2147483647 ->
      dbImportBatchSize (init env) = valueOf ds)
  /\ (env "GOPOSM_DBIMPORT_BATCHSIZE" = String "-" (numeral ds) ->
      valueOf ds <= 2147483648 ->
      dbImportBatchSize (init env) = - valueOf ds).
Proof.
  intros Hds Hpos.
  destruct (ParseInt32_numeral ds Hds) as (H1 & H2 & H3).
  unfold init. cbn [dbImportBatchSize].
  split; [|split]; intros -> Hv.
  - rewrite H1 by done. cbn [fst].
    destruct (Z.eqb_spec (valueOf ds) 0); [lia|done].
  - rewrite H2 by done. cbn [fst].
    destruct (Z.eqb_spec (valueOf ds) 0); [lia|done].
  - rewrite H3 by done. cbn [fst].
    destruct (Z.eqb_spec (- valueOf ds) 0); [lia|done].
Qed.

Lemma X2_witness :
  dbImportBatchSize (init (setenv "GOPOSM_DBIMPORT_BATCHSIZE" "512")) = 512
  /\ dbImportBatchSize (init (setenv "GOPOSM_DBIMPORT_BATCHSIZE" "+512"))
     = 512
  /\ dbImportBatchSize (init (setenv "GOPOSM_DBIMPORT_BATCHSIZE" "-512"))
     = -512.
Proof.
  split; [|split].
  - destruct (X2_batch_size_numeral
                (setenv "GOPOSM_DBIMPORT_BATCHSIZE" "512") [5; 1; 2])
      as (H & _); [split; [done|repeat constructor; lia]|reflexivity|].
    apply H; [reflexivity|vm_compute; discriminate].
  - destruct (X2_batch_size_numeral
                (setenv "GOPOSM_DBIMPORT_BATCHSIZE" "+512") [5; 1; 2])
      as (_ & H & _); [split; [done|repeat constructor; lia]|reflexivity|].
    apply H; [reflexivity|vm_compute; discriminate].
  - destruct (X2_batch_size_numeral
                (setenv "GOPOSM_DBIMPORT_BATCHSIZE" "-512") [5; 1; 2])
      as (_ & _ & H); [split; [done|repeat constructor; lia]|reflexivity|].
    apply H; [reflexivity|vm_compute; discriminate].
Defined.

Lemma parseDigits_overflow ds acc :
  0 <= acc <= 4294967295 -> Forall (fun d => 0 <= d <= 9) ds ->
  4294967295 < fold_left (fun a d => a * 10 + d) ds acc ->
  strconv.parseDigits acc (map digitChar ds)
  = (4294967295, Some strconv.ErrRange).
Proof.
  intros Hacc Hds. revert acc Hacc.
  induction Hds as [|d ds Hd Hds IH]; intros acc Hacc Hv; simpl in *; [lia|].
  rewrite (digit_digitChar _ Hd).
  destruct (Z.ltb_spec 4294967295 (acc * 10 + d)); [done|].
  apply IH; [lia|done].
Qed.

Lemma ParseUint32_clamped ds :
  isDigits ds ->
  exists un e,
    strconv.ParseUint32 (map digitChar ds) = (un, e)
    /\ e <> Some strconv.ErrSyntax
    /\ un = Z.min (valueOf ds) 4294967295.
Proof.
  intros Hds.
  destruct (Z.le_gt_cases (valueOf ds) 4294967295) as [Hv|Hv].
  - rewrite (ParseUint32_numeral ds Hds Hv).
    do 2 eexists. split; [done|]. split; [done|lia].
  - destruct Hds as [Hne Hds]. unfold strconv.ParseUint32.
    destruct ds as [|d ds]; [done|].
    change (map digitChar (d :: ds)) with (digitChar d :: map digitChar ds).
    cbv iota.
    change (digitChar d :: map digitChar ds) with (map digitChar (d :: ds)).
    rewrite parseDigits_overflow; [|lia|done|done].
    do 2 eexists. split; [done|]. split; [done|lia].
Qed.

Lemma ParseInt32_clamped ds :
  isDigits ds ->
  (2147483647 < valueOf ds ->
   fst (strconv.ParseInt32 (numeral ds)) = 2147483647
   /\ fst (strconv.ParseInt32 (String "+" (numeral ds))) = 2147483647)
  /\ (2147483648 < valueOf ds ->
      fst (strconv.ParseInt32 (String "-" (numeral ds))) = -2147483648).
Proof.
  intros Hds.
  destruct (ParseUint32_clamped ds Hds) as (un & e & Hun & He & Hmin).
  assert (Hfirst : exists d rest, ds = d :: rest /\ 0 <= d <= 9).
  { destruct Hds as [Hne Hall]. destruct ds as [|d rest]; [done|].
    inversion Hall; subst. eauto. }
  destruct Hfirst as (d & rest & Heq & Hd).
  destruct (digitChar_not_sign d Hd) as [Hplus Hminus].
  split; [intros Hv; split|intros Hv]; unfold strconv.ParseInt32, numeral.
  - rewrite list_ascii_of_string_of_list_ascii.
    rewrite Heq. cbn [map]. rewrite Hplus, Hminus. cbn [orb].
    change (digitChar d :: map digitChar rest) with (map digitChar (d :: rest)).
    rewrite <- Heq, Hun. cbn [negb andb].
    destruct e as [[]|]; try done;
      (destruct (Z.leb_spec 2147483648 un); [done|lia]).
  - cbn [list_ascii_of_string]. rewrite list_ascii_of_string_of_list_ascii.
    cbn [Ascii.eqb Bool.eqb orb andb negb]. rewrite Hun.
    destruct e as [[]|]; try done;
      (destruct (Z.leb_spec 2147483648 un); [done|lia]).
  - cbn [list_ascii_of_string]. rewrite list_ascii_of_string_of_list_ascii.
    cbn [Ascii.eqb Bool.eqb orb andb negb]. rewrite Hun.
    destruct e as [[]|]; try done;
      (destruct (Z.ltb_spec 2147483648 un); [done|lia]).
Qed.

(** X3: a numeral too large for 32 bits does not fall back to 4096: the
    error of ParseInt is dropped and the value it returns with a range
    error, the largest or smallest 32-bit integer, becomes the batch
    size. *)
Theorem X3_batch_size_clamped (env : Environ) (ds : list Z) :
  isDigits ds ->
  (2147483647 < valueOf ds ->
   env "GOPOSM_DBIMPORT_BATCHSIZE" = numeral ds
   \/ env "GOPOSM_DBIMPORT_BATCHSIZE" = String "+" (numeral ds) ->
   dbImportBatchSize (init env) = 2147483647)
  /\ (2147483648 < valueOf ds ->
      env "GOPOSM_DBIMPORT_BATCHSIZE" = String "-" (numeral ds) ->
      dbImportBatchSize (init env) = -2147483648).
Proof.
  intros Hds.
  destruct (ParseInt32_clamped ds Hds) as (H1 & H2).
  unfold init. cbn [dbImportBatchSize].
  split; intros Hv.
  - destruct (H1 Hv) as [Ha Hb]. intros [-> | ->].
    + by rewrite Ha.
    + by rewrite Hb.
  - intros ->. by rewrite (H2 Hv).
Qed.

Lemma X3_witness :
  dbImportBatchSize (init (setenv "GOPOSM_DBIMPORT_BATCHSIZE" "3000000000"))
  = 2147483647
  /\ dbImportBatchSize
       (init (setenv "GOPOSM_DBIMPORT_BATCHSIZE" "-99999999999"))
     = -2147483648.
Proof.
  split.
  - destruct (X3_batch_size_clamped
                (setenv "GOPOSM_DBIMPORT_BATCHSIZE" "3000000000")
                [3; 0; 0; 0; 0; 0; 0; 0; 0; 0]) as (H & _);
      [split; [done|repeat constructor; lia]|].
    apply H; [reflexivity|by left].
  - destruct (X3_batch_size_clamped
                (setenv "GOPOSM_DBIMPORT_BATCHSIZE" "-99999999999")
                [9; 9; 9; 9; 9; 9; 9; 9; 9; 9; 9]) as (_ & H);
      [split; [done|repeat constructor; lia]|].
    apply H; reflexivity.
Defined.

(** ** More on [parse]: what each store receives *)

Section ParseStores.

Context {C : Collaborators}.

Lemma parse_frame g sched s :
  parse g sched s
  = (Val tt,
     mkState (fold_left (batchCache g) sched (osmCache s)) (heap s)
       (trace s ++ parseCalls g sched (osmCache s))).
Proof.
  unfold parse, parseCalls. revert s.
  induction sched as [|b sched IH]; intros s; simpl.
  - unfold ret. by rewrite app_nil_r, state_eta.
  - destruct (writeBatch_run g b s) as (o & -> & Ho).
    destruct o; [| |done]; rewrite IH; cbn [osmCache heap trace];
      by rewrite <- app_assoc.
Qed.







Lemma countOf_app k (a b : list Event) :
  countOf k (a ++ b) = countOf k a + countOf k b.
Proof.
  unfold countOf, progressOf.
  rewrite flat_map_app, List.filter_app, map_app.
  induction (map snd _) as [|x l IH]; simpl; lia.
Qed.

Lemma countOf_batch k g c c' b :
  sameCounter k CtNodes = false ->
  countOf k (batchCalls g c b) = countOf k (batchCalls g c' b).
Proof.
  intros Hk. destruct b; simpl; repeat case_match; try done.
  by destruct k.
Qed.

Lemma countOf_parseCalls k g sched c :
  sameCounter k CtNodes = false ->
  countOf k (parseCalls g sched c)
  = fold_right Z.add 0 (map (fun b => countOf k (batchCalls g c b)) sched).
Proof.
  intros Hk. unfold parseCalls. revert c.
  induction sched as [|b sched IH]; intros c; simpl; [done|].
  rewrite countOf_app, IH. f_equal. f_equal.
  apply map_ext. intros b'. by apply countOf_batch.
Qed.

(** X18: the progress [parse] reports adds up, for the coords, the ways
    and the relations, to the number of elements the parser delivered
    in the batches of that kind, or to nothing when the kind is skipped;
    the relations are always counted. *)
Theorem X18_parse_progress_totals
  (g : Globals) (sched : list Batch) (s : State) :
  let evs := calls (parse g sched) s in
  countOf CtCoords evs
  = (if skipCoords g then 0
     else Z.of_nat (length (concat (coordsOf sched))))
  /\ countOf CtWays evs
     = (if skipWays g then 0 else Z.of_nat (length (concat (waysOf sched))))
  /\ countOf CtRelations evs
     = Z.of_nat (length (concat (relationsOf sched))).
Proof.
  cbv zeta.
  rewrite (calls_spec _ _ (parseCalls g sched (osmCache s)))
    by (by rewrite parse_frame).
  generalize (osmCache s). intros c.
  rewrite !countOf_parseCalls by done.
  destruct (skipCoords g) eqn:Hc, (skipWays g) eqn:Hw.
  all: induction sched as [|b sched (IH1 & IH2 & IH3)]; [done|].
  all: cbn [map fold_right coordsOf waysOf relationsOf flat_map concat app].
  all: rewrite IH1, IH2, IH3.
  all: destruct b; cbn [batchCalls concat app]; rewrite ?Hc, ?Hw;
    repeat case_match; unfold countOf, coordsOf, waysOf, relationsOf; simpl;
    rewrite ?length_app, ?Nat2Z.inj_add, ?length_map; repeat split; lia.
Qed.

End ParseStores.

(** ** More on [main]: how a run ends and what it leaves *)

Section WholeRun.

Context {C : Collaborators}.

Lemma main_full fl g sched s :
  exists h,
    main fl g sched s
    = (if mainOk fl (osmCache s) then Val tt else Exit,
       mkState (mainCache fl g sched (osmCache s)) h
         (trace s ++ mainCalls fl g sched (osmCache s))).
Proof.
  unfold main, mainCalls, mainOk, mainCache.
  pose proof (startup_run fl s
    (bind (if nonempty (read fl) then readPhase g sched else ret tt) (fun _ =>
     bind (if write fl then writePhase fl else ret tt) (fun _ =>
     bind (emit ProgressStop) (fun _ => emit CacheClose))))) as Hs.
  destruct (startup fl (osmCache s)) as [[ev c1] ok].
  rewrite Hs. clear Hs. cbn [snd]. destruct ok; cbn [andb]; [|eauto].
  unfold phasesCalls.
  set (s1 := mkState c1 (heap s) (trace s ++ ev)).
  assert (Hread : exists h,
    (if nonempty (read fl) then readPhase g sched else ret tt) s1
    = (Val tt,
       mkState (if nonempty (read fl) then readCache g sched c1 else c1) h
         (trace s ++ ev
          ++ (if nonempty (read fl) then readCalls g sched c1 else [])))).
  { destruct (nonempty (read fl)).
    - destruct (readPhase_run g sched s1) as (h & ->). exists h.
      subst s1. cbn [osmCache heap trace]. by tidy_trace.
    - exists (heap s). unfold ret, s1. by rewrite app_nil_r. }
  destruct Hread as (h1 & Hread). unfold bind at 1. rewrite Hread.
  destruct (write fl); cbn [negb orb].
  - unfold bind at 1.
    match goal with
    | |- context [writePhase fl ?s2] =>
        destruct (writePhase_run fl s2) as (h2 & ->)
    end.
    cbn [osmCache heap trace].
    destruct (sinkOpens fl); run_step; eexists;
      rewrite ?app_nil_r; by tidy_trace.
  - run_step. eexists. by tidy_trace.
Qed.

Lemma main_calls fl g sched s :
  calls (main fl g sched) s = mainCalls fl g sched (osmCache s).
Proof.
  destruct (main_full fl g sched s) as (h & Hrun).
  apply calls_spec. by rewrite Hrun.
Qed.

Lemma existsb_forallb (q f : Event -> bool) evs :
  (forall e, q e = true -> f e = false) ->
  forallb q evs = true -> existsb f evs = false.
Proof.
  intros Hq. induction evs as [|e evs IH]; simpl; [done|].
  intros [He Hevs]%andb_true_iff. by rewrite (Hq _ He), IH.
Qed.

Lemma existsb_among (f : Event -> bool) evs among :
  evs ⊆ among -> existsb f among = false -> existsb f evs = false.
Proof.
  intros Hsub Hf. induction evs as [|e evs IH]; simpl; [done|].
  rewrite IH by (intros x Hx; apply Hsub; by right).
  rewrite orb_false_r.
  assert (He : e ∈ among) by (apply Hsub; by left).
  clear -He Hf. induction He; simpl in Hf;
    apply orb_false_iff in Hf as [H1 H2]; auto.
Qed.

Lemma parseCalls_writer g sched c :
  forallb writerCall (parseCalls g sched c) = true.
Proof.
  unfold parseCalls. apply forallb_passCalls. intros c' b.
  destruct b; simpl; repeat case_match; done.
Qed.

Lemma readCalls_read g sched c : forallb readCall (readCalls g sched c) = true.
Proof.
  unfold readCalls. cbn [forallb]. rewrite forallb_app.
  rewrite (forallb_weaken writerCall readCall)
    by (first [apply parseCalls_writer | by intros e; unfold readCall; intros ->]).
  done.
Qed.

Lemma assemblyCalls_write fl c :
  forallb writeCall (assemblyCalls fl c) = true.
Proof.
  pose proof (assemblyCalls_assembler fl c) as H.
  apply (forallb_weaken _ writeCall) in H;
    [|by intros e; unfold writeCall; intros ->].
  unfold assemblyCalls. rewrite !forallb_app in *. simpl.
  rewrite !forallb_app. simpl.
  apply andb_true_iff in H as [H1 H2].
  apply andb_true_iff in H2 as [H2 H3].
  simpl in H1, H2, H3. by rewrite H1, H2, H3.
Qed.


Lemma writeCalls_write fl c : forallb writeCall (writeCalls fl c) = true.
Proof.
  pose proof (assemblyCalls_write fl c) as Ha.
  unfold writeCalls, sinkCalls. simpl.
  repeat case_match; simpl; done.
Qed.

Lemma startup_calls fl c :
  forallb startCall (fst (fst (startup fl c))) = true.
Proof.
  unfold startup. repeat case_match; simplify_eq; simpl;
    rewrite ?forallb_app; simpl; repeat case_match; done.
Qed.


Lemma sinkCalls_fail fl rest :
  sinkOpens fl = false ->
  exists pre e,
    sinkCalls fl rest = pre ++ [LogFatal "" (Some e)]
    /\ pre ⊆ [DiffCacheRemove; DiffCacheOpen; DbOpen; DbInit].
Proof.
  unfold sinkOpens, sinkCalls. intros Hs.
  destruct (DiffRemove _) as [e|].
  { exists [DiffCacheRemove], e. split; [done|among_tac]. }
  destruct (DiffOpen _) as [e|].
  { exists [DiffCacheRemove; DiffCacheOpen], e. split; [done|among_tac]. }
  destruct (DatabaseOpen _) as [e|].
  { exists [DiffCacheRemove; DiffCacheOpen; DbOpen], e.
    split; [done|among_tac]. }
  destruct DatabaseInit as [e|].
  { exists [DiffCacheRemove; DiffCacheOpen; DbOpen; DbInit], e.
    split; [done|among_tac]. }
  by rewrite !bool_decide_eq_true_2 in Hs.
Qed.


Lemma phasesCalls_no (f : Event -> bool) fl g sched c :
  (forall e, readCall e = true -> f e = false) ->
  (forall e, writeCall e = true -> f e = false) ->
  f ProgressStop = false -> f CacheClose = false ->
  existsb f (phasesCalls fl g sched c) = false.
Proof.
  intros Hr Hw Hs Hc. unfold phasesCalls.
  rewrite existsb_app.
  assert (H1 : existsb f (if nonempty (read fl) then readCalls g sched c
                          else []) = false).
  { destruct (nonempty (read fl)); [|done].
    apply (existsb_forallb readCall); [done|apply readCalls_read]. }
  rewrite H1. cbn [orb].
  destruct (write fl); [|by simpl; rewrite Hs, Hc].
  rewrite existsb_app.
  rewrite (existsb_forallb writeCall f) by (done || apply writeCalls_write).
  destruct (sinkOpens fl); simpl; by rewrite ?Hs, ?Hc.
Qed.

(** X5: the existing cache is removed exactly when a file is to be read,
    the cache exists and -overwritecache is given: -appendcache does not
    prevent it, and a run that only writes never removes the cache. *)
Theorem X5_cache_removed_iff
  (fl : Flags) (g : Globals) (sched : list Batch) (s : State) :
  existsb isCacheRemove (calls (main fl g sched) s)
  = nonempty (read fl) && Exists (osmCache s) && overwritecache fl.
Proof.
  rewrite main_calls. unfold mainCalls, startup.
  assert (Hp : forall c,
    existsb isCacheRemove (phasesCalls fl g sched c) = false).
  { intros c. apply phasesCalls_no; try done.
    - intros e. unfold readCall. by destruct e.
    - intros e. unfold writeCall. by destruct e. }
  destruct (nonempty (read fl) && Exists (osmCache s));
    [destruct (overwritecache fl);
       [destruct (snd (Remove _)) as [e|]|destruct (appendcache fl)]|];
    cbn [negb andb];
    rewrite ?bool_decide_eq_true_2, ?bool_decide_eq_false_2 by done;
    try done;
    destruct (snd (Open _)) as [e1|]; [|destruct (NewMapping _) as [e2|]| |
      destruct (NewMapping _) as [e2|]| |destruct (NewMapping _) as [e2|]];
    rewrite ?existsb_app, ?Hp; done.
Qed.



Lemma fold_relationCache_keeps {X} (proj : OSMCache -> X) rels c :
  (forall c r, proj (relationCache c r) = proj c) ->
  proj (fold_left relationCache rels c) = proj c.
Proof.
  intros Hp. revert c. induction rels as [|r rels IH]; intros c; simpl.
  - done.
  - by rewrite IH, Hp.
Qed.

Lemma relationsDone_stores c :
  cache.Coords (relationsDone c) = cache.Coords c
  /\ cache.Nodes (relationsDone c) = cache.Nodes c
  /\ cache.Ways (relationsDone c) = cache.Ways c
  /\ cache.Relations (relationsDone c) = cache.Relations c.
Proof.
  unfold relationsDone.
  repeat split;
    (apply fold_relationCache_keeps; intros c' r; unfold relationCache;
     by destruct (marking c' r)).
Qed.

Lemma writeCache_stores fl c :
  cache.Coords (writeCache fl c) = cache.Coords c
  /\ cache.Nodes (writeCache fl c) = cache.Nodes c
  /\ cache.Ways (writeCache fl c) = cache.Ways c
  /\ cache.Relations (writeCache fl c) = cache.Relations c.
Proof.
  unfold writeCache. destruct (sinkOpens fl); [|done].
  apply relationsDone_stores.
Qed.

(** X11: the write phase never changes the coords, nodes, ways or
    relations stores, whether it completes or ends in log.Fatal: of the
    cache it writes the inserted-ways marker only. *)
Theorem X11_write_phase_keeps_stores (fl : Flags) (s : State) :
  let c' := osmCache (snd (writePhase fl s)) in
  cache.Coords c' = cache.Coords (osmCache s)
  /\ cache.Nodes c' = cache.Nodes (osmCache s)
  /\ cache.Ways c' = cache.Ways (osmCache s)
  /\ cache.Relations c' = cache.Relations (osmCache s).
Proof.
  cbv zeta. destruct (writePhase_run fl s) as (h & ->). cbn [snd osmCache].
  apply writeCache_stores.
Qed.

(** X8: a run without -read makes no call that writes to an entity
    store, switches the coord store's mode or removes the cache; the
    four stores are at the end what Open made of them; and the run does
    not depend on the skip variables or on what the parser would
    deliver. *)
Theorem X8_write_only_run_keeps_stores
  (fl : Flags) (g g' : Globals) (sched sched' : list Batch) (s : State) :
  read fl = "" ->
  let c0 := fst (Open (osmCache s)) in
  let c' := osmCache (snd (main fl g sched s)) in
  existsb isStoreWrite (calls (main fl g sched) s) = false
  /\ cache.Coords c' = cache.Coords c0
  /\ cache.Nodes c' = cache.Nodes c0
  /\ cache.Ways c' = cache.Ways c0
  /\ cache.Relations c' = cache.Relations c0
  /\ main fl g sched s = main fl g' sched' s.
Proof.
  intros Hread. cbv zeta. split.
  - rewrite main_calls. unfold mainCalls, startup. rewrite Hread.
    cbn [nonempty andb].
    assert (Hp : forall c,
      existsb isStoreWrite (phasesCalls fl g sched c) = false).
    { intros c. unfold phasesCalls. rewrite Hread. cbn [nonempty app].
      destruct (write fl); [|done]. rewrite existsb_app.
      rewrite (existsb_forallb writeCall isStoreWrite);
        [|intros e; unfold writeCall; by destruct e|apply writeCalls_write].
      by destruct (sinkOpens fl). }
    destruct (snd (Open _)) as [e1|]; [done|].
    destruct (NewMapping _) as [e2|]; [done|].
    cbn [app existsb isStoreWrite orb]. apply Hp.
  - assert (Hsame : main fl g sched s = main fl g' sched' s)
      by (unfold main; by rewrite Hread).
    assert (Hst : forall c,
      cache.Coords (if write fl then writeCache fl c else c) = cache.Coords c
      /\ cache.Nodes (if write fl then writeCache fl c else c) = cache.Nodes c
      /\ cache.Ways (if write fl then writeCache fl c else c) = cache.Ways c
      /\ cache.Relations (if write fl then writeCache fl c else c)
         = cache.Relations c).
    { intros c. destruct (write fl); [apply writeCache_stores|done]. }
    destruct (Hst (fst (Open (osmCache s)))) as (H1 & H2 & H3 & H4).
    assert (Hc : osmCache (snd (main fl g sched s))
                 = fst (Open (osmCache s))
                 \/ osmCache (snd (main fl g sched s))
                    = if write fl then writeCache fl (fst (Open (osmCache s)))
                      else fst (Open (osmCache s))).
    { destruct (main_full fl g sched s) as (h & ->). cbn [snd osmCache].
      unfold mainCache, startup. rewrite Hread. cbn [nonempty andb].
      destruct (snd (Open _)) as [e1|]; [by left|].
      destruct (NewMapping _) as [e2|]; [by left|by right]. }
    destruct Hc as [-> | ->]; done.
Qed.

(** X9: a run without -write touches neither the diff cache, the
    database, the insert buffer nor the inserted-ways marker, calls no
    geometry builder and iterates over no store. *)
Theorem X9_read_only_run_assembles_nothing
  (fl : Flags) (g : Globals) (sched : list Batch) (s : State) :
  write fl = false ->
  existsb isWriteSide (calls (main fl g sched) s) = false
  /\ existsb isAssembly (calls (main fl g sched) s) = false.
Proof.
  intros Hwrite. rewrite main_calls. unfold mainCalls.
  pose proof (startup_calls fl (osmCache s)) as Hstart.
  destruct (startup fl (osmCache s)) as [[ev c1] ok]. cbn [fst] in Hstart.
  assert (Hev : existsb isWriteSide ev = false
                /\ existsb isAssembly ev = false).
  { split; apply (existsb_forallb startCall); try done; by intros []. }
  destruct Hev as [Hev1 Hev2].
  destruct ok; [|done].
  unfold phasesCalls. rewrite Hwrite, !existsb_app, Hev1, Hev2.
  destruct (nonempty (read fl)); [|done].
  split; (rewrite (existsb_forallb readCall);
          [done|intros e; unfold readCall; by destruct e
          |apply readCalls_read]).
Qed.

(** X10: when the cache is new and opens, the mapping loads, a file is
    read and -write is given, but the diff cache or the database cannot
    be set up, [main] ends in log.Fatal after the whole read phase: the
    cache holds what the read phase left, the failing step's error is
    the last call, and nothing has been iterated, built or inserted. *)
Theorem X10_sink_failure_after_import
  (fl : Flags) (g : Globals) (sched : list Batch) (s : State) :
  let c0 := fst (Open (osmCache s)) in
  Exists (osmCache s) = false ->
  snd (Open (osmCache s)) = None ->
  NewMapping (mappingFile fl) = None ->
  read fl <> "" ->
  write fl = true ->
  sinkOpens fl = false ->
  fst (main fl g sched s) = Exit
  /\ osmCache (snd (main fl g sched s)) = readCache g sched c0
  /\ (exists pre e,
        calls (main fl g sched) s
        = CacheOpen :: readCalls g sched c0
          ++ ProgressReset :: pre ++ [LogFatal "" (Some e)]
        /\ pre ⊆ [DiffCacheRemove; DiffCacheOpen; DbOpen; DbInit])
  /\ existsb isAssembly (calls (main fl g sched) s) = false.
Proof.
  cbv zeta. intros Hex Hopen Hmap Hread%nonempty_true Hwrite Hsink.
  rewrite main_calls. destruct (main_full fl g sched s) as (h & ->).
  cbn [fst snd osmCache].
  unfold mainOk, mainCache, mainCalls, startup, phasesCalls, writeCache,
    writeCalls.
  rewrite Hread, Hex. cbn [andb].
  rewrite Hopen, Hmap, Hwrite, Hsink. cbn [andb fst snd negb orb].
  split; [done|]. split; [done|].
  destruct (sinkCalls_fail fl
              (assemblyCalls fl (readCache g sched (fst (Open (osmCache s)))))
              Hsink) as (pre & e & -> & Hpre).
  split.
  - exists pre, e. split; [|done]. by rewrite app_nil_r.
  - cbn [app existsb isAssembly orb]. rewrite !existsb_app.
    rewrite (existsb_forallb readCall isAssembly);
      [|intros x; unfold readCall; by destruct x|apply readCalls_read].
    cbn [existsb isAssembly orb]. rewrite !existsb_app.
    rewrite (existsb_among _ _ _ Hpre) by done. done.
Qed.

End WholeRun.

(** ** More on the assemblers: error paths, frames and progress *)

Section MoreAssemblers.

Context {C : Collaborators}.

(** X12: when FillMembers fails with an error other than NotFound, the
    relation is given up: the error is printed with fmt.Println, no
    coord is read, the geometry builder is not called, nothing is
    inserted or marked, and the loop goes on with the next relation. *)
Theorem X12_members_unreadable_skips_relation
  (r : Relation) (e : error) (s : State) :
  snd (FillMembers (cache.Ways (osmCache s)) (Members r)) = Some e ->
  e <> NotFound ->
  relationBody r s
  = (Continue,
     mkState (osmCache s) (heap s)
       (trace s
        ++ [ProgressAdd CtRelations 1; WaysFillMembers (Id (rElem r));
            FmtPrintln e])).
Proof.
  intros Hfill Hne. unfold relationBody. unfold bind at 1.
  rewrite assembleRelation_run. unfold assembleCalls, handed.
  rewrite Hfill. destruct (decide (e = NotFound)); [done|].
  by tidy_trace.
Qed.

Lemma filter_none (f : Event -> bool) evs :
  existsb f evs = false -> List.filter f evs = [].
Proof.
  induction evs as [|x evs IH]; simpl; [done|].
  intros [-> H]%orb_false_iff. auto.
Qed.

Lemma filter_all (f : Event -> bool) evs :
  forallb f evs = true -> List.filter f evs = evs.
Proof.
  induction evs as [|x evs IH]; simpl; [done|].
  intros [-> H]%andb_true_iff. by rewrite IH.
Qed.

Lemma fillCalls_none (f : Event -> bool) cc ms :
  (forall id, f (CoordsFillWay id) = false) ->
  (forall e, f (FmtPrintln e) = false) ->
  existsb f (flat_map (fillCalls cc) ms) = false.
Proof.
  intros H1 H2. apply existsb_flat_map. intros m. unfold fillCalls.
  repeat (case_match; simpl); by rewrite ?H1, ?H2.
Qed.

Lemma assembleCalls_none (f : Event -> bool) c r :
  (forall k n, f (ProgressAdd k n) = false) ->
  (forall id, f (WaysFillMembers id) = false) ->
  (forall id, f (CoordsFillWay id) = false) ->
  (forall id, f (GeomBuildRelation id) = false) ->
  (forall e, f (FmtPrintln e) = false) ->
  existsb f (assembleCalls c r) = false.
Proof.
  intros H1 H2 H3 H4 H5. unfold assembleCalls.
  cbn [app existsb]. rewrite H1, H2. cbn [orb].
  destruct (handed c r).
  - rewrite existsb_app, fillCalls_none by done. simpl. by rewrite H4.
  - case_match; simpl; by rewrite ?H5.
Qed.

(** X13: for every relation the rows and the marker go together.  Among
    the calls of the body, those that insert a row or put members are:
    for a relation that was assembled and matches a polygon rule, one row
    per match followed by one PutMembers of the members as the builder
    left them; for any other relation, none.  The body never ends the
    run, not even when PutMembers fails, and it leaves the way records
    alone. *)
Theorem X13_relation_rows_then_marker (r : Relation) (s : State) :
  let c := osmCache s in
  let rowOrMark := fun e => isInsert e || isPutMembers e in
  fst (relationBody r s) <> Exit
  /\ heap (snd (relationBody r s)) = heap s
  /\ List.filter rowOrMark (calls (relationBody r) s)
     = match marking c r with
       | Some r2 =>
           rowsOf (PolygonMatcher (rElem r2)) (rElem r2)
           ++ [InsertedPutMembers (Members r2)]
       | None => []
       end.
Proof.
  cbv zeta. destruct (relationBody_run r s) as (o & Hrun & Ho).
  rewrite (calls_spec _ _ (relationCalls (osmCache s) r))
    by (by rewrite Hrun).
  rewrite Hrun. cbn [fst snd heap]. split; [done|]. split; [done|].
  unfold relationCalls, marking, assembled, markCalls.
  rewrite List.filter_app.
  rewrite (filter_none _ (assembleCalls _ _))
    by (by apply assembleCalls_none).
  cbn [app].
  destruct (handed (osmCache s) r) as [r1|]; [|done].
  destruct (snd (BuildRelation r1)) as [e|].
  - apply filter_none. by apply existsb_logged.
  - destruct (some (PolygonMatcher _)); [|done].
    rewrite List.filter_app.
    rewrite filter_all by (by apply forallb_rowsOf).
    f_equal. simpl. by case_match.
Qed.

(** X14: when FillWay fails for a way of the way pass, with NotFound or
    with any other error, the body ends without a word: nothing is
    logged or printed, no builder is called, nothing is inserted or
    recorded for diff.  The way's record is left with the nodes FillWay
    wrote, not projected. *)
Theorem X14_way_fill_failure_is_silent
  (diff : bool) (p : loc) (s : State) (w0 : Way) (e : error) :
  let id := Id (wElem w0) in
  let cc := cache.Coords (osmCache s) in
  heap s !! p = Some w0 ->
  IsInserted (cache.InsertedWays (osmCache s)) id = (false, None) ->
  snd (FillWay cc (Refs w0)) = Some e ->
  wayBody diff p s
  = (Continue,
     mkState (osmCache s)
       (<[p := wSetNodes w0 (fst (FillWay cc (Refs w0)))]> (heap s))
       (trace s
        ++ [ProgressAdd CtWays 1; InsertedIsInserted id; CoordsFillWay id])).
Proof.
  cbv zeta. intros Hp Hins Hfill. unfold wayBody. unfold bind at 1.
  rewrite (wayPrepare_run _ _ _ Hp). cbv zeta. rewrite Hins, Hfill.
  by tidy_trace.
Qed.

Lemma fresh_subseteq (h : gmap loc Way) w :
  h ⊆ <[fresh (dom h) := w]> h.
Proof.
  apply insert_subseteq, not_elem_of_dom, is_fresh.
Qed.

Lemma wayLineStrings_heap p s w :
  heap s !! p = Some w ->
  exists o s',
    wayLineStrings p s = (o, s')
    /\ o <> Exit /\ heap s ⊆ heap s' /\ osmCache s' = osmCache s.
Proof.
  intros Hp. rewrite (wayLineStrings_run _ _ _ Hp). cbv zeta.
  destruct (some _); [|by do 2 eexists].
  destruct (snd (LineStringWKB _));
    (do 2 eexists; split; [reflexivity|]; split; [done|];
     split; [apply fresh_subseteq|done]).
Qed.

Lemma wayPolygons_heap p s w :
  heap s !! p = Some w ->
  exists o s',
    wayPolygons p s = (o, s')
    /\ o <> Exit /\ heap s ⊆ heap s' /\ osmCache s' = osmCache s.
Proof.
  intros Hp. rewrite (wayPolygons_run _ _ _ Hp). cbv zeta.
  destruct (_ && _); [|by do 2 eexists].
  destruct (snd (PolygonWKB _));
    (do 2 eexists; split; [reflexivity|]; split; [done|];
     split; [apply fresh_subseteq|done]).
Qed.

Lemma wayBranches_heap diff p s w :
  heap s !! p = Some w ->
  let s' :=
    snd (bind (wayLineStrings p) (fun _ =>
         bind (wayPolygons p) (fun _ => wayDiff diff p)) s) in
  heap s ⊆ heap s' /\ osmCache s' = osmCache s.
Proof.
  intros Hp. cbv zeta.
  set (k := fun _ : unit => bind (wayPolygons p) (fun _ => wayDiff diff p)).
  unfold bind.
  destruct (wayLineStrings_heap p s w Hp) as (o1 & s1 & -> & Ho1 & Hh1 & Hc1).
  destruct o1; [| done | done].
  assert (Hp1 : heap s1 !! p = Some w) by (by eapply lookup_weaken).
  subst k. cbv beta. unfold bind.
  destruct (wayPolygons_heap p s1 w Hp1) as (o2 & s2 & -> & Ho2 & Hh2 & Hc2).
  destruct o2; cbn [snd]; [| split; [by etrans|congruence] | done].
  assert (Hp2 : heap s2 !! p = Some w) by (by eapply lookup_weaken).
  rewrite (wayDiff_run _ _ _ _ Hp2). cbn [snd heap osmCache].
  split; [by etrans|congruence].
Qed.

Lemma wayBody_heap diff p s w0 :
  heap s !! p = Some w0 ->
  exists nds,
    <[p := wSetNodes w0 nds]> (heap s) ⊆ heap (snd (wayBody diff p s))
    /\ osmCache (snd (wayBody diff p s)) = osmCache s.
Proof.
  intros Hp. unfold wayBody.
  set (k := fun _ : unit =>
         bind (wayLineStrings p) (fun _ =>
         bind (wayPolygons p) (fun _ => wayDiff diff p))).
  unfold bind.
  rewrite (wayPrepare_run _ _ _ Hp). cbv zeta.
  assert (Hid : <[p := wSetNodes w0 (Nodes w0)]> (heap s) = heap s).
  { apply insert_id. rewrite Hp. by destruct w0. }
  destruct (IsInserted _ _) as [[|] [e|]];
    try (exists (Nodes w0); by rewrite Hid).
  destruct (snd (FillWay _ _)) as [e|];
    [eexists; cbn [snd heap osmCache]; split; [reflexivity|done]|].
  subst k. cbv beta.
  match goal with
  | |- context [bind (wayLineStrings p) _ ?s1] =>
      destruct (wayBranches_heap diff p s1
                  (project
                     (wSetNodes w0
                        (fst (FillWay (cache.Coords (osmCache s))
                                (Refs w0))))))
        as [Hh Hc]; [apply lookup_insert_eq|]
  end.
  cbn [heap osmCache] in Hh, Hc.
  exists (NodesToMerc (fst (FillWay (cache.Coords (osmCache s)) (Refs w0)))).
  split; [exact Hh|exact Hc].
Qed.

Lemma wayCalls_diff_way diff c w0 w :
  DiffAddFromWay w ∈ wayCalls diff c w0 -> w = projected c w0.
Proof.
  unfold wayCalls, lineStringCalls, polygonCalls, projected.
  set (w2 := project _). clearbody w2.
  assert (Hrows : forall ms x, DiffAddFromWay w ∈ rowsOf ms x -> False).
  { intros ms x. unfold rowsOf. intros (m & Hm & _)%list_elem_of_fmap.
    done. }
  assert (Hlog : forall e, DiffAddFromWay w ∈ logged e -> False).
  { intros e He%elem_of_logged. done. }
  intros H.
  repeat first
    [ progress simplify_eq
    | apply elem_of_app in H as [H|H]
    | apply elem_of_cons in H as [H|H]
    | apply elem_of_nil in H as []
    | by apply Hrows in H
    | by apply Hlog in H
    | case_match ];
  done.
Qed.

(** X15: whatever path the body of the way pass takes for the way [w0]
    behind [p], it never ends the run and never changes the cache; the
    record behind [p] keeps its id, tags, geometry and refs (only its
    nodes are written), every other way record that existed is left as
    it was, and a way recorded in the diff coord store is the cached way
    with its projected nodes, never a copy that carries a built
    geometry. *)
Theorem X15_way_body_frame
  (diff : bool) (p : loc) (s : State) (w0 : Way) :
  let s' := snd (wayBody diff p s) in
  heap s !! p = Some w0 ->
  fst (wayBody diff p s) <> Exit
  /\ osmCache s' = osmCache s
  /\ (exists w',
        heap s' !! p = Some w'
        /\ wElem w' = wElem w0 /\ Refs w' = Refs w0)
  /\ (forall q, q <> p -> is_Some (heap s !! q) ->
        heap s' !! q = heap s !! q)
  /\ (forall w, DiffAddFromWay w ∈ calls (wayBody diff p) s ->
        w = projected (osmCache s) w0
        /\ Geom (wElem w) = Geom (wElem w0)).
Proof.
  cbv zeta. intros Hp.
  destruct (wayBody_heap diff p s w0 Hp) as (nds & Hsub & Hc).
  split; [|split; [exact Hc|split; [|split]]].
  - destruct (wayBody_run diff p s w0 Hp) as (o & h & -> & Ho). done.
  - exists (wSetNodes w0 nds). split; [|done].
    eapply lookup_weaken; [apply lookup_insert_eq|exact Hsub].
  - intros q Hq [x Hx]. rewrite Hx.
    eapply lookup_weaken; [|exact Hsub].
    by rewrite lookup_insert_ne.
  - intros w Hw.
    destruct (wayBody_run diff p s w0 Hp) as (o & h & Hrun & Ho).
    rewrite (calls_spec _ _ (wayCalls diff (osmCache s) w0)) in Hw
      by (by rewrite Hrun).
    apply wayCalls_diff_way in Hw. by subst w.
Qed.

Lemma progressOf_app (a b : list Event) :
  progressOf (a ++ b) = progressOf a ++ progressOf b.
Proof. unfold progressOf. apply flat_map_app. Qed.

Lemma progressOf_none evs :
  existsb (fun e => match e with ProgressAdd _ _ => true | _ => false end)
    evs = false ->
  progressOf evs = [].
Proof.
  induction evs as [|x evs IH]; simpl; [done|].
  intros [Hx H]%orb_false_iff. rewrite IH by done. by destruct x.
Qed.

Lemma progressOf_passCalls {A} step
  (callsOf : OSMCache -> A -> list Event) v c xs :
  (forall c x, progressOf (callsOf c x) = [v]) ->
  progressOf (passCalls step callsOf c xs) = replicate (length xs) v.
Proof.
  intros Hv. revert c. induction xs as [|x xs IH]; intros c; simpl; [done|].
  by rewrite progressOf_app, Hv, IH.
Qed.

Lemma progressOf_relationCalls c r :
  progressOf (relationCalls c r) = [(CtRelations, 1)].
Proof.
  unfold relationCalls, assembleCalls.
  rewrite <- app_assoc. cbn [app progressOf flat_map].
  change (flat_map _ ?l) with (progressOf l).
  rewrite progressOf_none; [done|].
  rewrite existsb_app.
  destruct (handed c r) as [r1|].
  - rewrite existsb_app, fillCalls_none by done. cbn [existsb orb].
    destruct (snd (BuildRelation r1)); [by apply existsb_logged|].
    unfold markCalls. destruct (some _); [|done].
    rewrite existsb_app, existsb_rowsOf by done. simpl. by case_match.
  - by case_match.
Qed.

Lemma progressOf_wayCalls diff c w :
  progressOf (wayCalls diff c w) = [(CtWays, 1)].
Proof.
  unfold wayCalls. cbn [app progressOf flat_map].
  change (flat_map _ ?l) with (progressOf l).
  rewrite progressOf_none; [done|].
  unfold lineStringCalls, polygonCalls. no_calls_tac.
Qed.

Lemma progressOf_nodeCalls n : progressOf (nodeCalls n) = [(CtNodes, 1)].
Proof.
  unfold nodeCalls. cbn [app progressOf flat_map].
  change (flat_map _ ?l) with (progressOf l).
  rewrite progressOf_none; [done|]. no_calls_tac.
Qed.

(** X16: each of the three passes reports progress once, by one, for
    every element the store's iterator delivers, in order: elements
    that are skipped, that fail or that match no rule are counted like
    the others. *)
Theorem X16_progress_counts_every_element (diff : bool) (s : State) :
  let c := osmCache s in
  progressOf (calls relationPass s)
  = replicate (length (RelationsIter (cache.Relations c))) (CtRelations, 1)
  /\ progressOf (calls (wayPass diff) s)
     = replicate (length (WaysIter (cache.Ways c))) (CtWays, 1)
  /\ progressOf (calls nodePass s)
     = replicate (length (NodesIter (cache.Nodes c))) (CtNodes, 1).
Proof.
  cbv zeta. split; [|split].
  - destruct (relationPass_run s) as (h & Hrun).
    rewrite (calls_spec _ _ (relationPassCalls (osmCache s)))
      by (by rewrite Hrun).
    unfold relationPassCalls. cbn [progressOf flat_map app].
    apply progressOf_passCalls, progressOf_relationCalls.
  - destruct (wayPass_run diff s) as (h & Hrun).
    rewrite (calls_spec _ _ (wayPassCalls diff (osmCache s)))
      by (by rewrite Hrun).
    unfold wayPassCalls. cbn [progressOf flat_map app].
    rewrite <- (passCalls_flat_map (wayCalls diff)).
    apply progressOf_passCalls. intros. apply progressOf_wayCalls.
  - destruct (nodePass_run s) as (h & Hrun).
    rewrite (calls_spec _ _ (nodePassCalls (osmCache s)))
      by (by rewrite Hrun).
    unfold nodePassCalls. cbn [progressOf flat_map app].
    rewrite <- (passCalls_flat_map (fun _ => nodeCalls) (osmCache s)).
    apply progressOf_passCalls. intros. apply progressOf_nodeCalls.
Qed.

Lemma filled_keeps cc m :
  mId (filled cc m) = mId m
  /\ mType (filled cc m) = mType m
  /\ Role (filled cc m) = Role m
  /\ match mWay m, mWay (filled cc m) with
     | None, None => True
     | Some w, Some w' => wElem w' = wElem w /\ Refs w' = Refs w
     | _, _ => False
     end.
Proof.
  unfold filled. destruct (mWay m) as [w|] eqn:Hw.
  - destruct (snd (FillWay _ _)) as [e|]; [destruct (decide _)|];
      simpl; done.
  - rewrite ?Hw. done.
Qed.

(** X17: the member loop of the relation assembler always runs to the
    end and gives back as many members as it was given, in the same
    order, each with its id, type and role; a member without a way stays
    without one, and of a member's way only the nodes change: id, tags,
    geometry and refs are kept.  The loop changes neither the cache nor
    the way records of the way pass. *)
Theorem X17_member_loop_keeps_members (ms : list Member) (s : State) :
  exists ms',
    fst (mapM fillMember ms s) = Val ms'
    /\ osmCache (snd (mapM fillMember ms s)) = osmCache s
    /\ heap (snd (mapM fillMember ms s)) = heap s
    /\ Forall2
         (fun m m' =>
            mId m' = mId m /\ mType m' = mType m /\ Role m' = Role m
            /\ match mWay m, mWay m' with
               | None, None => True
               | Some w, Some w' => wElem w' = wElem w /\ Refs w' = Refs w
               | _, _ => False
               end)
         ms ms'.
Proof.
  rewrite mapM_fillMember_run. cbn [fst snd osmCache heap].
  eexists. split; [reflexivity|]. split; [done|]. split; [done|].
  induction ms as [|m ms IH]; simpl; constructor; [|done].
  apply filled_keeps.
Qed.

(** X19: the node body never ends the run and changes neither the
    cache nor the way records.  The point builder is called exactly when
    a point rule matches the node as it is stored; the rows inserted are
    then, if the builder succeeds, one per match in the order of the
    matches, built from the projected node with the geometry the builder
    returned, and none if it fails. *)
Theorem X19_node_rows (n : Node) (s : State) :
  let matches := PointMatcher (nElem n) in
  let n1 := NodeToMerc n in
  fst (nodeBody n s) <> Exit
  /\ osmCache (snd (nodeBody n s)) = osmCache s
  /\ heap (snd (nodeBody n s)) = heap s
  /\ existsb isBuilderCall (calls (nodeBody n) s) = some matches
  /\ List.filter isInsert (calls (nodeBody n) s)
     = match snd (PointWKB n1) with
       | None => rowsOf matches (setGeom (nElem n1) (fst (PointWKB n1)))
       | Some _ => []
       end.
Proof.
  cbv zeta. destruct (nodeBody_run n s) as (o & Hrun & Ho).
  rewrite (calls_spec _ _ (nodeCalls n)) by (by rewrite Hrun).
  rewrite Hrun. cbn [fst snd osmCache heap].
  split; [done|]. split; [done|]. split; [done|].
  unfold nodeCalls. cbn [existsb isBuilderCall List.filter isInsert orb].
  destruct (PointMatcher (nElem n)) as [|m ms] eqn:Hm; cbn [some].
  - split; [done|]. by destruct (snd (PointWKB _)).
  - cbn [existsb isBuilderCall List.filter isInsert orb]. split; [done|].
    destruct (snd (PointWKB _)) as [e|].
    + apply filter_none. by apply existsb_logged.
    + apply filter_all. by apply forallb_rowsOf.
Qed.

End MoreAssemblers.

(** ** Further runs on the examples *)


Lemma X8_witness :
  existsb isStoreWrite
    (calls (main flagsWrite (init (setenv "GOPOSM_SKIP_WAYS" "1")) batches)
       (start cacheR)) = false
  /\ main flagsWrite (init (setenv "GOPOSM_SKIP_WAYS" "1")) batches
       (start cacheR)
     = main flagsWrite (init (fun _ => "")) [] (start cacheR).
Proof.
  pose proof (X8_write_only_run_keeps_stores flagsWrite
                (init (setenv "GOPOSM_SKIP_WAYS" "1")) (init (fun _ => ""))
                batches [] (start cacheR) eq_refl) as H.
  cbv zeta in H. destruct H as (H0 & _ & _ & _ & _ & H5).
  split; [exact H0|exact H5].
Defined.

Lemma X9_witness :
  existsb isWriteSide
    (calls (main flagsRead (init (fun _ => "")) batches) (start cacheR))
  = false
  /\ existsb isAssembly
       (calls (main flagsRead (init (fun _ => "")) batches) (start cacheR))
     = false.
Proof.
  exact (X9_read_only_run_assembles_nothing flagsRead (init (fun _ => ""))
           batches (start cacheR) eq_refl).
Defined.

Lemma X10_witness :
  fst (main (C := faulty) flags (init (fun _ => "")) batches
         (startF emptyCache)) = Exit
  /\ existsb isAssembly
       (calls (main (C := faulty) flags (init (fun _ => "")) batches)
          (startF emptyCache)) = false.
Proof.
  pose proof (X10_sink_failure_after_import (C := faulty) flags
                (init (fun _ => "")) batches (startF emptyCache)) as H.
  cbv zeta in H.
  destruct H as (H1 & _ & _ & H4);
    [vm_compute; reflexivity|reflexivity|reflexivity|discriminate
    |reflexivity|vm_compute; reflexivity|].
  split; [exact H1|exact H4].
Defined.

Lemma X12_witness :
  fst (relationBody (C := faulty) forest (startF cacheF)) = Continue.
Proof.
  rewrite (X12_members_unreadable_skips_relation (C := faulty) forest
             (ErrPlain "ways cache unreadable") (startF cacheF));
    [reflexivity|reflexivity|discriminate].
Defined.

Lemma X14_witness :
  fst (wayBody true 0%nat (at0 cache3 deadEnd)) = Continue.
Proof.
  pose proof (X14_way_fill_failure_is_silent true 0%nat (at0 cache3 deadEnd)
                deadEnd ErrNotFound) as H.
  cbv zeta in H.
  rewrite H; [reflexivity|vm_compute; reflexivity..].
Defined.

Lemma X15_witness :
  fst (wayBody true 0%nat (at0 cache3 triangle)) <> Exit
  /\ exists w',
       heap (snd (wayBody true 0%nat (at0 cache3 triangle))) !! 0%nat
       = Some w'
       /\ wElem w' = wElem triangle /\ Refs w' = Refs triangle.
Proof.
  pose proof (X15_way_body_frame true 0%nat (at0 cache3 triangle) triangle)
    as H.
  cbv zeta in H.
  destruct H as (H1 & _ & H3 & _); [vm_compute; reflexivity|].
  split; [exact H1|exact H3].
Defined.
